(** * The Streamlit command line: [lib/streamlit/cli.py]

    A shallow embedding of the command dispatcher of Streamlit and the
    properties of its option translation, its override applier, its
    run-target resolution and its deprecated aliases.

    Python byte strings are Rocq [string]s, Python dictionaries whose
    iteration order matters are association lists, the configuration
    store and the file system are finite maps, and the effectful
    functions live in a state-and-exception monad over a [World]. *)

From Stdlib Require Import Ascii String ZArith PrimFloat.
From stdpp Require Import base strings list gmap.

Open Scope string_scope.

(** ** Python string primitives used by [cli.py] *)

Module PyStr.

(** Characters that cannot be typed inside a Rocq string. *)
Definition LF : ascii := ascii_of_nat 10.
Definition ESC : ascii := ascii_of_nat 27.
Definition DQUOTE : ascii := ascii_of_nat 34.

Definition ch (c : ascii) : string := String c "".

Fixpoint map_chars (f : ascii → ascii) (s : string) : string :=
  match s with
  | "" => ""
  | String c s' => String (f c) (map_chars f s')
  end.

(** [s.replace(old, new)] for one-character [old] and [new], the only
    form [cli.py] uses. *)
Definition replace (old new : ascii) (s : string) : string :=
  map_chars (λ c, if Ascii.eqb c old then new else c) s.

(** [c.upper()] on a byte: the letters [a]..[z] move to [A]..[Z], every
    other byte is kept. *)
Definition upper_char (c : ascii) : ascii :=
  let n := nat_of_ascii c in
  if (97 <=? n)%nat && (n <=? 122)%nat then ascii_of_nat (n - 32) else c.

Definition upper (s : string) : string := map_chars upper_char s.

Fixpoint contains_char (c : ascii) (s : string) : bool :=
  match s with
  | "" => false
  | String a s' => Ascii.eqb a c || contains_char c s'
  end.

Definition is_empty (s : string) : bool :=
  match s with "" => true | _ => false end.

(** [s.lstrip(c)], [s.rstrip(c)] and [s.strip(c)] for a one-character
    set [c]. *)
Fixpoint lstrip (c : ascii) (s : string) : string :=
  match s with
  | "" => ""
  | String a s' => if Ascii.eqb a c then lstrip c s' else s
  end.

Fixpoint rstrip (c : ascii) (s : string) : string :=
  match s with
  | "" => ""
  | String a s' =>
      let r := rstrip c s' in
      if Ascii.eqb a c && is_empty r then "" else String a r
  end.

Definition strip (c : ascii) (s : string) : string := rstrip c (lstrip c s).

(** [s.rsplit(sep, 1)]: at most one split, at the last [sep]. The result
    has one element when [sep] does not occur and two when it does. *)
Fixpoint rsplit1 (sep : ascii) (s : string) : list string :=
  match s with
  | "" => [""]
  | String a s' =>
      match rsplit1 sep s' with
      | [t] => if Ascii.eqb a sep then [""; t] else [String a t]
      | h :: rest => String a h :: rest
      | [] => []
      end
  end.

(** [l[-1]] on a list of strings; [rsplit1] never returns the empty
    list, so the default is never used by [cli.py]. *)
Definition last_item (l : list string) : string := List.last l "".

(** [str(x)] as [format] applies it to an attribute that is a string or
    [None]. *)
Definition str_of (x : option string) : string :=
  match x with Some s => s | None => "None" end.

(** [needle in s]. *)
Definition infix_of (needle s : string) : Prop :=
  ∃ pre post, s = pre +:+ needle +:+ post.

Fixpoint ends_with_char (c : ascii) (s : string) : bool :=
  match s with
  | "" => false
  | String a "" => Ascii.eqb a c
  | String _ s' => ends_with_char c s'
  end.

Definition starts_with_char (c : ascii) (s : string) : bool :=
  match s with
  | String a _ => Ascii.eqb a c
  | "" => false
  end.

End PyStr.

Import PyStr.

(** ** The option registry as [cli.py] reads it *)

(** Modelled from the spec: the value types of a configuration option
    ([config_option.type]); the class that declares them is outside this
    file. The spec gives the closed set string, integer, boolean, float. *)
Inductive OptionType := TString | TInteger | TBoolean | TFloat.

(** Modelled from the spec: the attributes of [ConfigOption] that
    [_convert_config_option_to_click_option] reads. The deprecation text
    and date are optional ([None] when the option is not deprecated). *)
Record ConfigOption := mkConfigOption {
  key : string;
  description : string;
  type : OptionType;
  deprecated : bool;
  deprecation_text : option string;
  deprecation_date : option string
}.

(** The dictionary returned by [_convert_config_option_to_click_option]:
    its five string keys become the fields of a record. *)
Record ClickOption := mkClickOption {
  co_param : string;
  co_description : string;
  co_type : OptionType;
  co_option : string;
  co_envvar : string
}.

Definition _convert_config_option_to_click_option (config_option : ConfigOption)
  : ClickOption :=
  let option := "--" +:+ key config_option in
  let param := replace "." "_" (key config_option) in
  let description0 := description config_option in
  let description :=
    if deprecated config_option then
      description0 +:+ ch LF +:+ " "
        +:+ str_of (deprecation_text config_option) +:+ " - "
        +:+ str_of (deprecation_date config_option)
    else description0 in
  let envvar := "STREAMLIT_CONFIG_" +:+ upper param in
  {| co_param := param;
     co_description := description;
     co_type := type config_option;
     co_option := option;
     co_envvar := envvar |}.

(** [click.option(option, param, help=..., type=..., envvar=...)(func)]
    appends the parameter to the function's [__click_params__]; a command
    under construction is the list of the parameters attached so far. *)
Definition click_option (p : ClickOption) (func : list ClickOption)
  : list ClickOption := (func ++ [p])%list.

(** [configurator_options]: the registry is an ordered dictionary from
    keys to definitions, walked in reverse. *)
Definition configurator_options (_config_options : list (string * ConfigOption))
    (func : list ClickOption) : list ClickOption :=
  fold_left
    (λ func kv, click_option (_convert_config_option_to_click_option kv.2) func)
    (rev _config_options) func.

(** The reverse translation [_apply_config_options_from_cli] applies to a
    parameter name. *)
Definition config_option_def_key (config_option : string) : string :=
  replace "_" "." config_option.

(** ** Values, exceptions and the world the commands act on *)

(** A parsed flag value: what click hands over for one of the four option
    types. [None] ("not supplied") is the [option] around it. *)
Inductive PyValue :=
| VStr (s : string)
| VInt (z : Z)
| VBool (b : bool)
| VFloat (x : float).

(** The exceptions that travel through [cli.py]. *)
Inductive exn :=
| BadParameter (message : string)
| RequestException (message : string)
| IsADirectoryError (path : string)
| FileNotFoundError (path : string)
| CollaboratorError (message : string).

Inductive result (A : Type) :=
| Return (a : A)
| Raise (e : exn).
Arguments Return {A} a.
Arguments Raise {A} e.

(** Files by path with their bytes, and the directories. *)
Record FileSystem := mkFileSystem {
  files : gmap string string;
  dirs : gset string
}.

(** One delegation to [bootstrap.run], with the file system the delegate
    found when it was called. *)
Record BootstrapCall := mkBootstrapCall {
  bc_file : string;
  bc_command_line : string;
  bc_args : list string;
  bc_fs : FileSystem
}.

Record World := mkWorld {
  config : gmap string (PyValue * string);
  fs : FileSystem;
  stdout : list string;
  _is_running_with_streamlit : bool;
  bootstrap_calls : list BootstrapCall
}.

Definition with_config (f : gmap string (PyValue * string) → gmap string (PyValue * string))
    (w : World) : World :=
  mkWorld (f (config w)) (fs w) (stdout w) (_is_running_with_streamlit w)
          (bootstrap_calls w).

Definition with_fs (f : FileSystem → FileSystem) (w : World) : World :=
  mkWorld (config w) (f (fs w)) (stdout w) (_is_running_with_streamlit w)
          (bootstrap_calls w).

Definition with_stdout (f : list string → list string) (w : World) : World :=
  mkWorld (config w) (fs w) (f (stdout w)) (_is_running_with_streamlit w)
          (bootstrap_calls w).

Definition with_running (b : bool) (w : World) : World :=
  mkWorld (config w) (fs w) (stdout w) b (bootstrap_calls w).

Definition with_bootstrap_call (c : BootstrapCall) (w : World) : World :=
  mkWorld (config w) (fs w) (stdout w) (_is_running_with_streamlit w)
          (bootstrap_calls w ++ [c])%list.

(** An HTTP response as [_download_remote] reads it. [http_error] is the
    text of the [HTTPError] that [raise_for_status] raises for it. *)
Record Response := mkResponse {
  status_code : Z;
  http_error : string;
  content : string
}.

(** What lies outside [cli.py]: libraries and the collaborators of the
    package, each with the outcomes [cli.py] can observe. *)
Record Env := mkEnv {
  (** [validators.url]: truthy on a URL. *)
  url : string → bool;
  (** [urllib.parse.urlparse(target).path]. *)
  urlparse_path : string → string;
  (** [requests.get]: a response, or a [RequestException] with its text. *)
  requests_get : string → Response + string;
  (** [tempfile.mkdtemp]: the path of the directory it creates. *)
  mkdtemp : FileSystem → string;
  (** What else makes the operating system refuse to open a path for
      writing (a name that is too long, missing permissions, a component
      that is a file), with the exception [open] raises then. *)
  open_refused : string → option exn;
  (** [click.get_current_context().parent.command_path]. *)
  command_path : string;
  (** [click.get_os_args()]. *)
  os_args : list string;
  (** [subprocess.list2cmdline]. *)
  list2cmdline : list string → string;
  (** [Credentials.get_current().check_activated(auto_resolve=True)], as
      [cli.py] sees it: the call returns or raises. The dialogue of the
      activation flow and the credentials store belong to the collaborator
      and are not part of [World]. *)
  check_activated : result unit;
  (** [version.should_show_new_version_notice()], likewise. *)
  should_show_new_version_notice : result bool;
  (** [bootstrap.run(file, command_line, args)]. *)
  bootstrap_run : string → string → list string → FileSystem → result unit * FileSystem;
  (** [streamlit.caching.clear_cache()] and [get_cache_path()]. *)
  clear_cache : FileSystem → result bool * FileSystem;
  get_cache_path : string
}.

(** ** The state-and-exception monad *)

Definition M (A : Type) : Type := World → result A * World.

Definition ret {A} (a : A) : M A := λ w, (Return a, w).

Definition raise {A} (e : exn) : M A := λ w, (Raise e, w).

Definition bind {A B} (c : M A) (k : A → M B) : M B :=
  λ w, match c w with
       | (Return a, w') => k a w'
       | (Raise e, w') => (Raise e, w')
       end.

Notation "'let*' x := c 'in' k" := (bind c (λ x, k))
  (at level 10, x name, c at level 200, k at level 200, only parsing).
Notation "c ;;; k" := (bind c (λ _, k))
  (at level 100, k at level 200, right associativity).

(** Lifts an outcome that does not touch the world. *)
Definition outcome {A} (r : result A) : M A := λ w, (r, w).

(** ** The configuration store and the override applier *)

(** Modelled from the spec: [_config._set_option(key, value, where_defined)],
    the write into the live configuration store, which is outside this
    file. The store keeps, per dotted key, the value and the provenance
    tag of the layer that set it; the write itself raises nothing. *)
Definition _set_option (key : string) (value : PyValue) (where_defined : string)
  : M unit :=
  λ w, (Return tt, with_config (λ st, <[key := (value, where_defined)]> st) w).

(** [for config_option in kwargs: ...] over the keyword dictionary in its
    iteration order. *)
Fixpoint _apply_config_options_from_cli (kwargs : list (string * option PyValue))
  : M unit :=
  match kwargs with
  | [] => ret tt
  | (config_option, value) :: rest =>
      (match value with
       | Some v =>
           let config_option_def_key := replace "_" "." config_option in
           _set_option config_option_def_key v "cli call option"
       | None => ret tt
       end) ;;;
      _apply_config_options_from_cli rest
  end.

(** ** Files, paths and the temporary directory *)

(** Every character of [s] is [c]. *)
Fixpoint only_char (c : ascii) (s : string) : bool :=
  match s with
  | "" => true
  | String a s' => Ascii.eqb a c && only_char c s'
  end.

(** [os.path.join(a, b)] with POSIX separators. *)
Definition os_path_join (a b : string) : string :=
  if starts_with_char "/" b then b
  else if is_empty a || ends_with_char "/" a then a +:+ b
  else a +:+ "/" +:+ b.

(** [os.path.exists(path)]: a file or a directory has this path. *)
Definition path_exists (f : FileSystem) (path : string) : bool :=
  bool_decide (is_Some (files f !! path)) || bool_decide (path ∈ dirs f).

Definition os_path_exists (path : string) : M bool :=
  λ w, (Return (path_exists (fs w) path), w).

(** A path names a directory when it ends with a slash, when its last
    component is [.] or [..], or when it is the path of a directory. *)
Definition names_directory (f : FileSystem) (path : string) : bool :=
  ends_with_char "/" path
  || String.eqb (last_item (rsplit1 "/" path)) "."
  || String.eqb (last_item (rsplit1 "/" path)) ".."
  || bool_decide (path ∈ dirs f).

(** The directory a path lies in exists: the current directory for a path
    without a slash, the root, or a directory of the file system. *)
Definition parent_exists (f : FileSystem) (path : string) : bool :=
  match rsplit1 "/" path with
  | parent :: _ :: _ => only_char "/" parent || bool_decide (parent ∈ dirs f)
  | _ => true
  end.

(** [open(path, "wb")] succeeds on this file system. *)
Definition can_open (E : Env) (f : FileSystem) (path : string) : bool :=
  negb (is_empty path) && parent_exists f path
  && negb (names_directory f path)
  && bool_decide (open_refused E path = None).

(** [open(path, "wb")]: creates or truncates the file. It raises
    [FileNotFoundError] for the empty path and for a path whose directory
    does not exist, [IsADirectoryError] for a path that names a directory,
    and whatever else the operating system refuses the path with. *)
Definition open_wb (E : Env) (path : string) : M unit :=
  λ w, if is_empty path || negb (parent_exists (fs w) path)
       then (Raise (FileNotFoundError path), w)
       else if names_directory (fs w) path
       then (Raise (IsADirectoryError path), w)
       else match open_refused E path with
            | Some e => (Raise e, w)
            | None =>
                (Return tt,
                 with_fs (λ f, mkFileSystem (<[path := ""]> (files f)) (dirs f)) w)
            end.

(** [fp.write(data)] on a file just opened with ["wb"], as seen once the
    file is closed. *)
Definition fp_write (path data : string) : M unit :=
  λ w, (Return tt,
        with_fs (λ f, mkFileSystem (<[path := data]> (files f)) (dirs f)) w).

(** [path] is [d] or lies below it. *)
Definition under (d path : string) : bool :=
  String.eqb path d || String.prefix (d +:+ "/") path.

(** [shutil.rmtree(d)]. *)
Definition rmtree (d : string) (f : FileSystem) : FileSystem :=
  mkFileSystem (filter (λ kv, under d kv.1 = false) (files f))
               (filter (λ p, under d p = false) (dirs f)).

(** Modelled from the spec: [streamlit.temporary_directory.TemporaryDirectory],
    which is outside this file. Entering creates a directory and yields its
    path; leaving removes it with all it holds, whether the body returned or
    raised, and an exception of the body is raised again. *)
Definition TemporaryDirectory_enter (E : Env) : M string :=
  λ w, let d := mkdtemp E (fs w) in
       (Return d, with_fs (λ f, mkFileSystem (files f) ({[d]} ∪ dirs f)) w).

Definition TemporaryDirectory_exit (d : string) (w : World) : World :=
  with_fs (rmtree d) w.

Definition with_TemporaryDirectory {A} (E : Env) (body : string → M A) : M A :=
  let* temp_dir := TemporaryDirectory_enter E in
  λ w, let '(r, w') := body temp_dir w in
       (r, TemporaryDirectory_exit temp_dir w').

(** ** Terminal output *)

(** [click.echo(message)] and [print(message)]: one more line on the
    standard output. *)
Definition click_echo (message : string) : M unit :=
  λ w, (Return tt, with_stdout (λ out, (out ++ [message])%list) w).

Definition print (message : string) : M unit := click_echo message.

Inductive Color := red | blue.

Definition ansi_color (c : Color) : string :=
  match c with red => "31" | blue => "34" end.

(** [click.style(text, fg=..., bold=...)]: the ANSI codes of the colour and
    of the weight when they are given, the text, and the reset code. *)
Definition click_style (text : string) (fg : option Color) (bold : option bool)
  : string :=
  (match fg with
   | Some c => ch ESC +:+ "[" +:+ ansi_color c +:+ "m"
   | None => ""
   end)
  +:+ (match bold with
       | Some b => ch ESC +:+ "[" +:+ (if b then "1" else "22") +:+ "m"
       | None => ""
       end)
  +:+ text +:+ ch ESC +:+ "[0m".

Definition NEW_VERSION_TEXT : string :=
  ch LF +:+ "  "
  +:+ click_style "A new version of Streamlit is available." (Some blue) (Some true)
  +:+ ch LF +:+ ch LF
  +:+ "  See what's new at https://discuss.streamlit.io/c/announcements"
  +:+ ch LF +:+ ch LF
  +:+ "  Enter the following command to upgrade:" +:+ ch LF +:+ "  "
  +:+ click_style "$" (Some blue) None +:+ " "
  +:+ click_style "pip install streamlit --upgrade" None (Some true)
  +:+ ch LF.

(** ** The remote fetcher *)

(** [resp.raise_for_status()]: an [HTTPError], which is a
    [RequestException], for the statuses 400 to 599. *)
Definition raise_for_status (resp : Response) : result unit :=
  if (400 <=? status_code resp)%Z && (status_code resp <? 600)%Z
  then Raise (RequestException (http_error resp))
  else Return tt.

Definition requests_get_M (E : Env) (url_path : string) : M Response :=
  outcome (match requests_get E url_path with
           | inl resp => Return resp
           | inr e => Raise (RequestException e)
           end).

(** [try: body except requests.exceptions.RequestException as e: handler]. *)
Definition try_except_RequestException {A} (body : M A) (handler : string → M A)
  : M A :=
  λ w, match body w with
       | (Raise (RequestException e), w') => handler e w'
       | other => other
       end.

Definition _download_remote (E : Env) (script_path url_path : string) : M unit :=
  open_wb E script_path ;;;
  try_except_RequestException
    (let* resp := requests_get_M E url_path in
     outcome (raise_for_status resp) ;;;
     fp_write script_path (content resp))
    (λ e, raise (BadParameter
                   ("Unable to fetch " +:+ url_path +:+ "." +:+ ch LF +:+ e))).

(** ** The run orchestrator *)

(** Inside the invocation of a command click has a current context with a
    parent, which is where [_main_run] is called from, so the look-ups
    return. *)
Definition _get_command_line_as_string (E : Env) : string :=
  let cmd_line_as_list := [command_path E] in
  let cmd_line_as_list := (cmd_line_as_list ++ os_args E)%list in
  list2cmdline E cmd_line_as_list.

Definition bootstrap_run_M (E : Env) (file command_line : string)
    (args : list string) : M unit :=
  λ w, let w1 := with_bootstrap_call
                   (mkBootstrapCall file command_line args (fs w)) w in
       let '(r, f') := bootstrap_run E file command_line args (fs w) in
       (r, with_fs (λ _, f') w1).

Definition _main_run (E : Env) (file : string) (args : list string) : M unit :=
  let command_line := _get_command_line_as_string E in
  (λ w, (Return tt, with_running true w)) ;;;
  outcome (check_activated E) ;;;
  let* show := outcome (should_show_new_version_notice E) in
  (if show then click_echo NEW_VERSION_TEXT else ret tt) ;;;
  bootstrap_run_M E file command_line args.

(** ** The [run] command *)

Definition main_run (E : Env) (target : string) (args : list string)
    (kwargs : list (string * option PyValue)) : M unit :=
  _apply_config_options_from_cli kwargs ;;;
  if url E target then
    with_TemporaryDirectory E (λ temp_dir,
      let path := urlparse_path E target in
      let script_path :=
        os_path_join temp_dir (last_item (rsplit1 "/" (strip "/" path))) in
      _download_remote E script_path target ;;;
      _main_run E script_path args)
  else
    let* found := os_path_exists target in
    if negb found
    then raise (BadParameter ("File does not exist: " +:+ target))
    else _main_run E target args.

(** ** The cache commands and the deprecated alias *)

Definition cache_clear (E : Env) : M unit :=
  let* result := (λ w, let '(r, f') := clear_cache E (fs w) in
                       (r, with_fs (λ _, f') w)) in
  let cache_path := get_cache_path E in
  if result
  then print ("Cleared directory " +:+ cache_path +:+ ".")
  else print ("Nothing to clear at " +:+ cache_path +:+ ".").

(** [ctx.invoke(command)] with no further arguments runs the callback of
    the command in the current process. *)
Definition ctx_invoke {A} (callback : M A) : M A := callback.

Definition clear_cache_notice : string :=
  click_style ("Use " +:+ ch DQUOTE +:+ "cache clear" +:+ ch DQUOTE +:+ " instead.")
              (Some red) None.

Definition main_clear_cache (E : Env) : M unit :=
  click_echo clear_cache_notice ;;;
  ctx_invoke (cache_clear E).

(** ** A concrete environment to run the commands in *)

Module Sample.

(** Stand-ins for the libraries, precise enough for the targets below:
    a target is a URL when it starts with an HTTP scheme, and the path of
    a URL starts at the first slash after the host and stops at a query or
    a fragment. *)
Definition is_url (target : string) : bool :=
  String.prefix "http://" target || String.prefix "https://" target.

Fixpoint after_scheme (s : string) : string :=
  match s with
  | String ":" (String "/" (String "/" rest)) => rest
  | String _ s' => after_scheme s'
  | "" => ""
  end.

Fixpoint from_first_slash (s : string) : string :=
  match s with
  | "" => ""
  | String a s' => if Ascii.eqb a "/" then s else from_first_slash s'
  end.

Fixpoint until_query (s : string) : string :=
  match s with
  | "" => ""
  | String a s' =>
      if Ascii.eqb a "?" || Ascii.eqb a "#" then "" else String a (until_query s')
  end.

Definition path_of_url (target : string) : string :=
  until_query (from_first_slash (after_scheme target)).

Definition app_url : string := "https://example.com/scripts/app.py".
Definition missing_url : string := "https://example.com/missing.py".
Definition root_url : string := "https://example.com/".
Definition down_url : string := "http://host/x/y/script.py".

Definition app_bytes : string := "import streamlit as st".

Definition not_found : string :=
  "404 Client Error: Not Found for url: https://example.com/missing.py".

Definition http_get (u : string) : Response + string :=
  if String.eqb u app_url then inl (mkResponse 200 "" app_bytes)
  else if String.eqb u root_url then inl (mkResponse 200 "" "<html></html>")
  else if String.eqb u missing_url then inl (mkResponse 404 not_found "")
  else inr "Connection refused".

Definition temp_dir : string := "/tmp/tmpk3x9qz".

Definition join_args (l : list string) : string :=
  match l with
  | [] => ""
  | x :: rest => fold_left (λ acc a, acc +:+ " " +:+ a) rest x
  end.

(** The delegate that returns, and the one that fails. *)
Definition bootstrap_ok (file command_line : string) (args : list string)
    (f : FileSystem) : result unit * FileSystem := (Return tt, f).

Definition bootstrap_crash (file command_line : string) (args : list string)
    (f : FileSystem) : result unit * FileSystem :=
  (Raise (CollaboratorError "script failed"), f).

Definition cache_dir : string := "/home/user/.streamlit/cache".

(** The cache utility: clears the directory when there is one. *)
Definition clear_cache_dir (f : FileSystem) : result bool * FileSystem :=
  if bool_decide (cache_dir ∈ dirs f)
  then (Return true, rmtree cache_dir f)
  else (Return false, f).

Definition env_with (version_check : result bool)
    (boot : string → string → list string → FileSystem → result unit * FileSystem)
  : Env :=
  {| url := is_url;
     urlparse_path := path_of_url;
     requests_get := http_get;
     mkdtemp := λ _, temp_dir;
     open_refused := λ _, None;
     command_path := "streamlit";
     os_args := ["run"; "app.py"];
     list2cmdline := join_args;
     check_activated := Return tt;
     should_show_new_version_notice := version_check;
     bootstrap_run := boot;
     clear_cache := clear_cache_dir;
     get_cache_path := cache_dir |}.

Definition env : Env := env_with (Return false) bootstrap_ok.


Definition env_crash : Env := env_with (Return true) bootstrap_crash.

(** A world with one script on disk and one option set from the file. *)
Definition world : World :=
  {| config := {[ "server.port" := (VInt 8501, "config.toml") ]};
     fs := mkFileSystem {[ "./app.py" := app_bytes ]} {[ "/tmp"; cache_dir ]};
     stdout := [];
     _is_running_with_streamlit := false;
     bootstrap_calls := [] |}.

Definition kwargs : list (string * option PyValue) :=
  [("server_port", Some (VInt 8080)); ("server_headless", None);
   ("browser_serverAddress", Some (VStr "localhost"))].

Definition deprecated_option : ConfigOption :=
  mkConfigOption "global.sharingMode" "Configure the ability to share apps."
    TString true (Some "Use s3.bucket instead.") (Some "2019-09-01").

(** Option definitions: a key of the usual shape, and one whose name part
    holds an underscore. *)
Definition port_option : ConfigOption :=
  mkConfigOption "server.port" "The port where the server listens."
    TInteger false None None.

Definition underscore_option : ConfigOption :=
  mkConfigOption "server.base_url" "The base URL of the server."
    TString false None None.

End Sample.

(** ** The writes the applier is specified to make *)

(** The entries of the keyword dictionary that carry a value, each under
    the dotted key its name translates to. *)
Fixpoint supplied (kwargs : list (string * option PyValue))
  : list (string * PyValue) :=
  match kwargs with
  | [] => []
  | (p, Some v) :: rest => (config_option_def_key p, v) :: supplied rest
  | (_, None) :: rest => supplied rest
  end.

(** Writing a list of entries into the store, in order, with the tag of
    the command line. *)
Definition write_all (st : gmap string (PyValue * string))
    (entries : list (string * PyValue)) : gmap string (PyValue * string) :=
  foldl (λ st kv, <[kv.1 := (kv.2, "cli call option")]> st) st entries.

(** What [tempfile.mkdtemp] guarantees of the path [d] it returns on the
    file system [f]: a proper directory name under which nothing exists
    yet. *)
Definition fresh_dir (f : FileSystem) (d : string) : Prop :=
  is_empty d = false ∧ ends_with_char "/" d = false ∧
  ∀ p, under d p = true → (p ∉ dirs f) ∧ files f !! p = None.

(** The fetch of [u] fails with the text [e]: the transport raised, or the
    response has an error status. *)
Definition fetch_fails (E : Env) (u e : string) : Prop :=
  requests_get E u = inr e ∨
  ∃ resp, requests_get E u = inl resp ∧
          (400 ≤ status_code resp < 600)%Z ∧ http_error resp = e.

(** The fetch of [u] succeeds with the response [resp]. *)
Definition fetch_succeeds (E : Env) (u : string) (resp : Response) : Prop :=
  requests_get E u = inl resp ∧ ¬ (400 ≤ status_code resp < 600)%Z.

(** The file name [main_run] derives from a URL target. *)
Definition script_name (E : Env) (target : string) : string :=
  last_item (rsplit1 "/" (strip "/" (urlparse_path E target))).

(** The world in which the delegate is called: the flag is set and the
    notice is on the output when the version check asked for it. *)
Definition before_bootstrap (show : bool) (w : World) : World :=
  let w1 := with_running true w in
  if show then with_stdout (λ out, (out ++ [NEW_VERSION_TEXT])%list) w1 else w1.

(** The world after the overrides of [kwargs] were applied. *)
Definition overridden (kwargs : list (string * option PyValue)) (w : World)
  : World :=
  with_config (λ st, write_all st (supplied kwargs)) w.

(** The world in which [main_run] calls the orchestrator on a remote
    target: the overrides are applied, the temporary directory [d] exists
    and the file [script_path] holds [data]. *)
Definition fetched (kwargs : list (string * option PyValue))
    (d script_path data : string) (w : World) : World :=
  with_fs (λ f, mkFileSystem (<[script_path := data]> (files f))
                             ({[d]} ∪ dirs f))
          (overridden kwargs w).

(** ** The commands around [run] *)

(** [s.endswith(suffix)]. *)
Fixpoint endswith (suffix s : string) : bool :=
  String.eqb s suffix
  || match s with
     | "" => false
     | String _ s' => endswith suffix s'
     end.

Fixpoint take_chars (n : nat) (s : string) : string :=
  match n, s with
  | S n', String a s' => String a (take_chars n' s')
  | _, _ => ""
  end.

(** [s[:-n]] for a positive [n]: all but the last [n] characters, and the
    empty string when [s] is shorter. *)
Definition slice_to_neg (n : nat) (s : string) : string :=
  take_chars (String.length s - n) s.

(** [main_hello]; [hello_file] is [hello.__file__], the path of the
    bundled script as the interpreter loaded it. [_main_run] is called
    with its default, empty, argument list. *)
Definition main_hello (E : Env) (hello_file : string) : M unit :=
  let filename := hello_file in
  let filename :=
    if endswith ".pyc" filename
    then slice_to_neg 4 filename +:+ ".py"
    else filename in
  _main_run E filename [].

(** ** Further concrete inputs *)

Module Examples.

Definition registry : list (string * ConfigOption) :=
  [("server.port", Sample.port_option);
   ("global.sharingMode", Sample.deprecated_option)].

(** Nothing was given on the command line. *)
Definition no_flags : list (string * option PyValue) :=
  [("server_port", None); ("server_headless", None)].

(** Two names that translate to the same key [a.b]. *)
Definition clashing : list (string * option PyValue) :=
  [("a_b", Some (VInt 1)); ("a.b", Some (VInt 2))].

(** The bundled script as a compiled module. *)
Definition hello_pyc : string := "/site-packages/streamlit/hello/hello.pyc".

(** A script that is already where a download would go. *)
Definition world_with_old_script : World :=
  with_fs (λ f, mkFileSystem (<["/tmp/script.py" := "old bytes"]> (files f))
                             (dirs f)) Sample.world.

(** The credentials are not activated. *)
Definition env_not_activated : Env :=
  {| url := Sample.is_url;
     urlparse_path := Sample.path_of_url;
     requests_get := Sample.http_get;
     mkdtemp := λ _, Sample.temp_dir;
     open_refused := λ _, None;
     command_path := "streamlit";
     os_args := ["hello"];
     list2cmdline := Sample.join_args;
     check_activated := Raise (CollaboratorError "not activated");
     should_show_new_version_notice := Return true;
     bootstrap_run := Sample.bootstrap_ok;
     clear_cache := Sample.clear_cache_dir;
     get_cache_path := Sample.cache_dir |}.

(** A server that answers every request with the status 300 and a list of
    choices. *)
Definition choices_url : string := "https://example.com/scripts/app.py".

Definition choices_bytes : string := "<html>Multiple Choices</html>".

Definition env_multiple_choices : Env :=
  {| url := Sample.is_url;
     urlparse_path := Sample.path_of_url;
     requests_get := λ _, inl (mkResponse 300 "" choices_bytes);
     mkdtemp := λ _, Sample.temp_dir;
     open_refused := λ _, None;
     command_path := "streamlit";
     os_args := ["run"; choices_url];
     list2cmdline := Sample.join_args;
     check_activated := Return tt;
     should_show_new_version_notice := Return false;
     bootstrap_run := Sample.bootstrap_ok;
     clear_cache := Sample.clear_cache_dir;
     get_cache_path := Sample.cache_dir |}.

End Examples.

(** * Properties *)

(** ** Strings *)

Section StringFacts.

Lemma map_chars_compose f g s :
  map_chars f (map_chars g s) = map_chars (λ c, f (g c)) s.
Proof. induction s as [|c s IH]; simpl; [done | by rewrite IH]. Qed.

Lemma map_chars_ext f g s :
  (∀ c, f c = g c) → map_chars f s = map_chars g s.
Proof. intros Hfg. induction s as [|c s IH]; simpl; [done | by rewrite Hfg, IH]. Qed.

Lemma map_chars_id_on f s :
  (∀ c, contains_char c s = true → f c = c) → map_chars f s = s.
Proof.
  induction s as [|a s IH]; simpl; intros H; [done|].
  rewrite H, IH; [done | | ].
  - intros c Hc. apply H. rewrite Hc. by rewrite orb_true_r.
  - by rewrite Ascii.eqb_refl.
Qed.

Lemma upper_char_dot_underscore c :
  upper_char (if Ascii.eqb c "." then "_"%char else c)
  = if Ascii.eqb (upper_char c) "." then "_"%char else upper_char c.
Proof.
  destruct c as [[] [] [] [] [] [] [] []]; vm_compute; reflexivity.
Qed.

Lemma upper_replace_dot s :
  upper (replace "." "_" s) = replace "." "_" (upper s).
Proof.
  unfold upper, replace. rewrite !map_chars_compose.
  apply map_chars_ext, upper_char_dot_underscore.
Qed.

Lemma contains_char_false_cons c a s :
  contains_char c (String a s) = false ↔ a ≠ c ∧ contains_char c s = false.
Proof.
  simpl. rewrite orb_false_iff. split; intros [H1 H2]; split; try done.
  - intros ->. by rewrite Ascii.eqb_refl in H1.
  - by apply Ascii.eqb_neq.
Qed.

(** Replacing [a] by [b] and then [b] by [a] gives the string back when it
    held no [b]. *)
Lemma replace_replace_back a b s :
  contains_char b s = false → replace b a (replace a b s) = s.
Proof.
  unfold replace. induction s as [|c s IH]; [done|].
  intros [Hc Hs]%contains_char_false_cons. simpl. rewrite IH by done. f_equal.
  destruct (Ascii.eqb c a) eqn:Hca.
  - rewrite Ascii.eqb_refl. by apply Ascii.eqb_eq in Hca.
  - by apply Ascii.eqb_neq in Hc as ->.
Qed.

(** A string that held a [b] does not come back. *)
Lemma replace_replace_changes a b s :
  a ≠ b → contains_char b s = true → replace b a (replace a b s) ≠ s.
Proof.
  intros Hab. unfold replace. induction s as [|c s IH]; [done|].
  simpl. intros Hc Heq. injection Heq as Hhd Htl.
  destruct (Ascii.eqb c b) eqn:Hcb; simpl in Hc.
  - apply Ascii.eqb_eq in Hcb as ->.
    destruct (Ascii.eqb b a) eqn:Hba.
    + apply Ascii.eqb_eq in Hba. congruence.
    + rewrite Ascii.eqb_refl in Hhd. congruence.
  - by apply IH.
Qed.

Lemma replace_absent a b s :
  a ≠ b → contains_char a (replace a b s) = false.
Proof.
  intros Hab. unfold replace. induction s as [|c s IH]; [done|].
  simpl. rewrite IH, orb_false_r.
  destruct (Ascii.eqb c a) eqn:Hca; [|done].
  apply Ascii.eqb_neq. congruence.
Qed.

(** The reverse translation is one-to-one on names without dots. *)
Lemma config_option_def_key_inj p q :
  contains_char "." p = false → contains_char "." q = false →
  config_option_def_key p = config_option_def_key q → p = q.
Proof.
  intros Hp Hq Heq. unfold config_option_def_key in Heq.
  rewrite <- (replace_replace_back "_" "." p), <- (replace_replace_back "_" "." q)
    by done.
  by rewrite Heq.
Qed.

Lemma append_assoc (a b c : string) : (a +:+ b) +:+ c = a +:+ (b +:+ c).
Proof.
  induction a as [|x a IH]; [done|].
  change (String x ((a +:+ b) +:+ c) = String x (a +:+ b +:+ c)). by f_equal.
Qed.

Lemma append_empty_r (a : string) : a +:+ "" = a.
Proof.
  induction a as [|x a IH]; [done|].
  change (String x (a +:+ "") = String x a). by f_equal.
Qed.

Lemma infix_of_intro pre needle post :
  infix_of needle (pre +:+ needle +:+ post).
Proof. by exists pre, post. Qed.

End StringFacts.

(** ** The option translator *)

Lemma configurator_options_app reg func :
  configurator_options reg func
  = (func ++ map (λ kv, _convert_config_option_to_click_option kv.2) (rev reg))%list.
Proof.
  unfold configurator_options. generalize (rev reg) as l. intros l.
  revert func. induction l as [|kv l IH]; intros func; simpl.
  - by rewrite app_nil_r.
  - rewrite IH. unfold click_option. by rewrite <- app_assoc.
Qed.

(** C1. For every option definition with key [k] the translator gives the
    flag ["--" + k] with the dots kept, the parameter name [k] with every
    dot replaced by an underscore, and the environment variable
    ["STREAMLIT_CONFIG_"] followed by [k] in upper case with every dot
    replaced by an underscore. The help text is the description, and for a
    deprecated option the description followed by the deprecation text and
    the date. The installer attaches exactly these translations, one per
    registry entry, in reverse registry order. *)
Theorem convert_config_option_names
    (reg : list (string * ConfigOption)) (o : ConfigOption) :
  let p := _convert_config_option_to_click_option o in
  co_option p = "--" +:+ key o ∧
  co_param p = replace "." "_" (key o) ∧
  co_envvar p = "STREAMLIT_CONFIG_" +:+ replace "." "_" (upper (key o)) ∧
  contains_char "." (co_param p) = false ∧
  co_type p = type o ∧
  co_description p
  = (if deprecated o
     then description o +:+ ch LF +:+ " " +:+ str_of (deprecation_text o)
          +:+ " - " +:+ str_of (deprecation_date o)
     else description o) ∧
  (∀ t d, deprecated o = true → deprecation_text o = Some t →
          deprecation_date o = Some d →
          co_description p
          = description o +:+ ch LF +:+ " " +:+ t +:+ " - " +:+ d) ∧
  configurator_options reg []
  = map (λ kv, _convert_config_option_to_click_option kv.2) (rev reg).
Proof.
  cbv zeta. unfold _convert_config_option_to_click_option. simpl.
  repeat split.
  - by rewrite upper_replace_dot.
  - by apply replace_absent.
  - intros t d -> -> ->. reflexivity.
  - by rewrite configurator_options_app.
Qed.

Example convert_deprecated_option :
  _convert_config_option_to_click_option Sample.deprecated_option
  = {| co_param := "global_sharingMode";
       co_description :=
         "Configure the ability to share apps." +:+ ch LF
         +:+ " Use s3.bucket instead. - 2019-09-01";
       co_type := TString;
       co_option := "--global.sharingMode";
       co_envvar := "STREAMLIT_CONFIG_GLOBAL_SHARINGMODE" |}.
Proof. reflexivity. Qed.

(** ** The override applier *)

Lemma with_config_id w : with_config (λ st, st) w = w.
Proof. by destruct w. Qed.

Lemma apply_config_options_run kwargs w :
  _apply_config_options_from_cli kwargs w
  = (Return tt, with_config (λ st, write_all st (supplied kwargs)) w).
Proof.
  revert w. induction kwargs as [|[p [v|]] rest IH]; intros w.
  - simpl. unfold ret. by rewrite with_config_id.
  - simpl. unfold bind, _set_option. by rewrite IH.
  - simpl. unfold bind, ret. by rewrite IH.
Qed.

Lemma write_all_lookup_notin st (l : list (string * PyValue)) k :
  k ∉ l.*1 → write_all st l !! k = st !! k.
Proof.
  revert st. induction l as [|[k' v'] l IH]; intros st Hk; [done|].
  rewrite fmap_cons, not_elem_of_cons in Hk. destruct Hk as [Hne Hk].
  unfold write_all in *. simpl. rewrite IH by done.
  by rewrite lookup_insert_ne.
Qed.

Lemma write_all_lookup_in st (l : list (string * PyValue)) k v :
  NoDup l.*1 → (k, v) ∈ l → write_all st l !! k = Some (v, "cli call option").
Proof.
  revert st. induction l as [|[k' v'] l IH]; intros st Hnd Hin.
  - by apply elem_of_nil in Hin.
  - rewrite fmap_cons in Hnd. apply NoDup_cons in Hnd as [Hk' Hnd].
    apply elem_of_cons in Hin as [Heq|Hin].
    + injection Heq as <- <-.
      change (write_all (<[k := (v, "cli call option")]> st) l !! k
              = Some (v, "cli call option")).
      rewrite write_all_lookup_notin by done. by rewrite lookup_insert_eq.
    + change (write_all (<[k' := (v', "cli call option")]> st) l !! k
              = Some (v, "cli call option")).
      by apply IH.
Qed.

Lemma elem_of_supplied kwargs k v :
  (k, v) ∈ supplied kwargs
  ↔ ∃ p, (p, Some v) ∈ kwargs ∧ k = config_option_def_key p.
Proof.
  induction kwargs as [|[p [v'|]] rest IH]; simpl.
  - split; [by intros ?%elem_of_nil | by intros (? & ?%elem_of_nil & _)].
  - rewrite elem_of_cons, IH. split.
    + intros [Heq | (q & Hq & ->)].
      * injection Heq as -> ->. exists p. split; [left | done].
      * exists q. split; [by right | done].
    + intros (q & Hq & ->). apply elem_of_cons in Hq as [Heq|Hq].
      * injection Heq as -> ->. by left.
      * right. by exists q.
  - rewrite IH. split; intros (q & Hq & ->); exists q; split; try done.
    + by right.
    + by apply elem_of_cons in Hq as [?|?].
Qed.

Lemma supplied_keys kwargs k :
  k ∈ (supplied kwargs).*1 → ∃ p v, (p, Some v) ∈ kwargs ∧ k = config_option_def_key p.
Proof.
  intros ([k' v] & -> & Hin)%list_elem_of_fmap.
  apply elem_of_supplied in Hin as (p & Hp & ->). by exists p, v.
Qed.

Lemma supplied_NoDup kwargs :
  NoDup kwargs.*1 → Forall (λ p, contains_char "." p = false) kwargs.*1 →
  NoDup (supplied kwargs).*1.
Proof.
  induction kwargs as [|[p [v|]] rest IH]; simpl; intros Hnd Hdot.
  - constructor.
  - apply NoDup_cons in Hnd as [Hp Hnd].
    apply Forall_cons in Hdot as [Hpd Hdot]. apply NoDup_cons. split; [|by apply IH].
    intros (q & v' & Hq & Heq)%supplied_keys.
    assert (q ∈ rest.*1) as Hqin.
    { apply list_elem_of_fmap. by exists (q, Some v'). }
    apply config_option_def_key_inj in Heq; [by subst | done |].
    by eapply Forall_forall in Hdot.
  - apply NoDup_cons in Hnd as [Hp Hnd].
    apply Forall_cons in Hdot as [Hpd Hdot]. by apply IH.
Qed.

Lemma NoDup_fst_functional {A} (l : list (string * A)) p a b :
  NoDup l.*1 → (p, a) ∈ l → (p, b) ∈ l → a = b.
Proof.
  induction l as [|[q c] l IH]; intros Hnd Ha Hb.
  - by apply elem_of_nil in Ha.
  - rewrite fmap_cons in Hnd. apply NoDup_cons in Hnd as [Hq Hnd].
    assert (∀ x, (q, x) ∈ l → False) as Hfresh.
    { intros x Hx. apply Hq, list_elem_of_fmap. by exists (q, x). }
    apply elem_of_cons in Ha as [Ha|Ha]; apply elem_of_cons in Hb as [Hb|Hb].
    + congruence.
    + injection Ha as -> ->. by destruct (Hfresh b).
    + injection Hb as -> ->. by destruct (Hfresh a).
    + by apply IH.
Qed.

(** C2. The applier returns normally and changes nothing but the store. It
    writes exactly the entries of the parsed-flag mapping whose value is not
    [None], each with its value and the tag ["cli call option"], under the
    dotted key of its name. A key that no supplied entry translates to keeps
    what the store held. For a keyword dictionary (distinct names, which
    are identifiers and so hold no dot) every supplied value is in the
    store afterwards, and the key of an entry that was not supplied is left
    as it was. *)
Theorem apply_config_options_writes_supplied
    (kwargs : list (string * option PyValue)) (w : World) :
  ∃ w',
    _apply_config_options_from_cli kwargs w = (Return tt, w') ∧
    w' = with_config (λ st, write_all st (supplied kwargs)) w ∧
    (∀ k v, (k, v) ∈ supplied kwargs
            ↔ ∃ p, (p, Some v) ∈ kwargs ∧ k = config_option_def_key p) ∧
    (∀ k, (∀ p v, (p, Some v) ∈ kwargs → config_option_def_key p ≠ k) →
          config w' !! k = config w !! k) ∧
    (NoDup kwargs.*1 →
     Forall (λ p, contains_char "." p = false) kwargs.*1 →
     (∀ p v, (p, Some v) ∈ kwargs →
             config w' !! config_option_def_key p = Some (v, "cli call option")) ∧
     (∀ p, (p, None) ∈ kwargs →
           config w' !! config_option_def_key p
           = config w !! config_option_def_key p)).
Proof.
  eexists. split; [apply apply_config_options_run|].
  split; [done|]. split; [apply elem_of_supplied|].
  assert (∀ k, (∀ p v, (p, Some v) ∈ kwargs → config_option_def_key p ≠ k) →
               write_all (config w) (supplied kwargs) !! k = config w !! k)
    as Huntouched.
  { intros k Hk. apply write_all_lookup_notin.
    intros (p & v & Hp & ->)%supplied_keys. by eapply Hk. }
  split; [exact Huntouched|].
  intros Hnd Hdot. split.
  - intros p v Hp. simpl. apply write_all_lookup_in.
    + by apply supplied_NoDup.
    + apply elem_of_supplied. by exists p.
  - intros p Hp. simpl. apply Huntouched. intros q v Hq Heq.
    rewrite Forall_forall in Hdot.
    assert (contains_char "." p = false) as Hpd.
    { apply Hdot, list_elem_of_fmap. by exists (p, None). }
    assert (contains_char "." q = false) as Hqd.
    { apply Hdot, list_elem_of_fmap. by exists (q, Some v). }
    apply config_option_def_key_inj in Heq; [|done..]. subst q.
    by pose proof (NoDup_fst_functional _ _ _ _ Hnd Hp Hq).
Qed.

Example apply_sample_kwargs :
  let w' := (_apply_config_options_from_cli Sample.kwargs Sample.world).2 in
  config w' !! "server.port" = Some (VInt 8080, "cli call option") ∧
  config w' !! "browser.serverAddress" = Some (VStr "localhost", "cli call option") ∧
  config w' !! "server.headless" = None ∧
  fs w' = fs Sample.world.
Proof. vm_compute. done. Qed.

(** ** The round trip of a key through the flag name *)

(** C7, as stated, fails: the key [server.base_url] becomes the parameter
    [server_base_url], which the applier translates to [server.base.url]. *)
Lemma key_round_trip_fails_with_underscore :
  key Sample.underscore_option = "server.base_url" ∧
  config_option_def_key
    (co_param (_convert_config_option_to_click_option Sample.underscore_option))
  = "server.base.url" ∧
  config_option_def_key
    (co_param (_convert_config_option_to_click_option Sample.underscore_option))
  ≠ key Sample.underscore_option.
Proof. split; [done|]. split; [done|]. discriminate. Qed.

Lemma key_round_trip_iff (o : ConfigOption) :
  config_option_def_key (co_param (_convert_config_option_to_click_option o)) = key o
  ↔ contains_char "_" (key o) = false.
Proof.
  unfold config_option_def_key. simpl. split.
  - intros Heq. destruct (contains_char "_" (key o)) eqn:Hc; [|done].
    by apply (replace_replace_changes "." "_") in Hc.
  - apply replace_replace_back.
Qed.

(** C7 (amended). For every option definition whose key holds no
    underscore, replacing every dot by an underscore and then every
    underscore by a dot gives the key back, so a value supplied for its flag
    is written to exactly that key, with the tag ["cli call option"]. *)
Theorem key_round_trip_without_underscore
    (o : ConfigOption) (v : PyValue) (w : World) :
  contains_char "_" (key o) = false →
  config_option_def_key (co_param (_convert_config_option_to_click_option o))
  = key o ∧
  _apply_config_options_from_cli
    [(co_param (_convert_config_option_to_click_option o), Some v)] w
  = (Return tt, with_config (λ st, <[key o := (v, "cli call option")]> st) w).
Proof.
  intros Hk. apply key_round_trip_iff in Hk as Hrt. split; [done|].
  rewrite apply_config_options_run. cbn [supplied]. unfold write_all.
  cbn [foldl fst snd]. by rewrite Hrt.
Qed.

(** The round trip on the key [server.port]. *)
Lemma key_round_trip_without_underscore_witness :
  contains_char "_" (key Sample.port_option) = false ∧
  config_option_def_key
    (co_param (_convert_config_option_to_click_option Sample.port_option))
  = "server.port" ∧
  config (_apply_config_options_from_cli
            [(co_param (_convert_config_option_to_click_option Sample.port_option),
              Some (VInt 8080))] Sample.world).2 !! "server.port"
  = Some (VInt 8080, "cli call option").
Proof.
  split; [reflexivity|].
  destruct (key_round_trip_without_underscore
              Sample.port_option (VInt 8080) Sample.world eq_refl) as [H1 H2].
  split; [exact H1|]. rewrite H2. reflexivity.
Defined.

(** ** The run orchestrator *)

Section Orchestrator.

Context (E : Env).

Lemma _main_run_reaches_bootstrap file args w show :
  check_activated E = Return tt →
  should_show_new_version_notice E = Return show →
  _main_run E file args w
  = bootstrap_run_M E file (_get_command_line_as_string E) args
      (before_bootstrap show w).
Proof.
  intros Hc Hv. unfold _main_run, bind, outcome, before_bootstrap.
  rewrite Hc, Hv. by destruct show.
Qed.

Lemma _main_run_version_check_raises file args w e :
  check_activated E = Return tt →
  should_show_new_version_notice E = Raise e →
  _main_run E file args w = (Raise e, with_running true w).
Proof.
  intros Hc Hv. unfold _main_run, bind, outcome. by rewrite Hc, Hv.
Qed.

Lemma bootstrap_run_M_calls file command_line args w :
  ∃ r f',
    bootstrap_run E file command_line args (fs w) = (r, f') ∧
    bootstrap_run_M E file command_line args w
    = (r, with_fs (λ _, f')
            (with_bootstrap_call
               (mkBootstrapCall file command_line args (fs w)) w)).
Proof.
  unfold bootstrap_run_M.
  destruct (bootstrap_run E file command_line args (fs w)) as [r f'].
  by exists r, f'.
Qed.

End Orchestrator.




(** ** Paths and the file system *)

Section Paths.

Lemma prefix_append (a b : string) : String.prefix a (a +:+ b) = true.
Proof.
  induction a as [|x a IH]; [by destruct b|].
  change (String.prefix (String x a) (String x (a +:+ b)) = true).
  simpl. by destruct (ascii_dec x x).
Qed.

Lemma append_eq_self (a b : string) : a +:+ b = a → b = "".
Proof.
  intros H. apply (String.app_inj a). by rewrite append_empty_r.
Qed.

Lemma ends_with_char_append c (a b : string) :
  b ≠ "" → ends_with_char c (a +:+ b) = ends_with_char c b.
Proof.
  intros Hb. induction a as [|x a IH]; [done|].
  change (ends_with_char c (String x (a +:+ b)) = ends_with_char c b).
  assert (a +:+ b ≠ "") as Hab.
  { destruct a as [|y a]; [exact Hb|].
    change (String y (a +:+ b) ≠ ""). discriminate. }
  simpl. by destruct (a +:+ b).
Qed.

Lemma ends_with_char_contains c s :
  ends_with_char c s = true → contains_char c s = true.
Proof.
  induction s as [|a s IH]; [done|]. simpl. destruct s as [|b s].
  - intros ->. done.
  - intros H. rewrite IH by done. by rewrite orb_true_r.
Qed.

Lemma starts_with_char_contains c s :
  starts_with_char c s = true → contains_char c s = true.
Proof. destruct s as [|a s]; [done|]. simpl. by intros ->. Qed.

(** [rsplit1] returns one or two pieces, and the last holds no separator. *)
Lemma rsplit1_shape sep s :
  (∃ t, rsplit1 sep s = [t] ∧ contains_char sep t = false) ∨
  (∃ h t, rsplit1 sep s = [h; t] ∧ contains_char sep t = false).
Proof.
  induction s as [|a s IH]; simpl.
  - left. by exists "".
  - destruct IH as [(t & -> & Ht) | (h & t & -> & Ht)].
    + destruct (Ascii.eqb a sep) eqn:Ha.
      * right. by exists "", t.
      * left. exists (String a t). split; [done|]. simpl. by rewrite Ha, Ht.
    + right. by exists (String a h), t.
Qed.

Lemma last_item_rsplit1_no_sep sep s :
  contains_char sep (last_item (rsplit1 sep s)) = false.
Proof.
  destruct (rsplit1_shape sep s) as [(t & -> & Ht) | (h & t & -> & Ht)]; done.
Qed.

(** Joining a directory and a plain file name. *)
Lemma os_path_join_plain d name :
  is_empty d = false → ends_with_char "/" d = false →
  contains_char "/" name = false →
  os_path_join d name = d +:+ "/" +:+ name.
Proof.
  intros Hd Hs Hn. unfold os_path_join.
  destruct (starts_with_char "/" name) eqn:Hst.
  - apply starts_with_char_contains in Hst. congruence.
  - by rewrite Hd, Hs.
Qed.

Lemma os_path_join_empty d :
  is_empty d = false → ends_with_char "/" d = false →
  os_path_join d "" = d +:+ "/".
Proof. intros Hd Hs. unfold os_path_join. simpl. by rewrite Hd, Hs. Qed.

Lemma under_child d name : under d (d +:+ "/" +:+ name) = true.
Proof.
  unfold under. rewrite <- append_assoc, prefix_append. by rewrite orb_true_r.
Qed.

Lemma child_not_directory_name d name :
  name ≠ "" → contains_char "/" name = false →
  ends_with_char "/" (d +:+ "/" +:+ name) = false.
Proof.
  intros Hne Hn. rewrite <- append_assoc, ends_with_char_append by done.
  destruct (ends_with_char "/" name) eqn:He; [|done].
  apply ends_with_char_contains in He. congruence.
Qed.

Lemma rmtree_removes d f p :
  under d p = true →
  (p ∉ dirs (rmtree d f)) ∧ files (rmtree d f) !! p = None.
Proof.
  intros Hu. unfold rmtree. simpl. split.
  - rewrite elem_of_filter. intros [H _]. congruence.
  - apply map_lookup_filter_None. right. intros x _. simpl. congruence.
Qed.

Lemma under_self d : under d d = true.
Proof. unfold under. by rewrite String.eqb_refl. Qed.

Lemma rsplit1_no_sep sep s :
  contains_char sep s = false → rsplit1 sep s = [s].
Proof.
  induction s as [|a s IH]; [done|].
  intros [Ha Hs]%contains_char_false_cons. simpl. rewrite (IH Hs).
  by apply Ascii.eqb_neq in Ha as ->.
Qed.

(** Splitting at the last separator gives back the two parts. *)
Lemma rsplit1_append sep h t :
  contains_char sep t = false → rsplit1 sep (h +:+ String sep t) = [h; t].
Proof.
  intros Ht. induction h as [|a h IH].
  - change (rsplit1 sep (String sep t) = [""; t]). simpl.
    by rewrite (rsplit1_no_sep sep t Ht), Ascii.eqb_refl.
  - change (rsplit1 sep (String a (h +:+ String sep t)) = [String a h; t]).
    simpl. by rewrite IH.
Qed.

End Paths.

(** ** The remote fetcher *)

Section Fetcher.

Context (E : Env).

Lemma open_wb_ok path w :
  can_open E (fs w) path = true →
  open_wb E path w
  = (Return tt,
     with_fs (λ f, mkFileSystem (<[path := ""]> (files f)) (dirs f)) w).
Proof.
  unfold can_open, open_wb.
  intros [[[Hne Hp]%andb_true_iff Hd]%andb_true_iff Hos%bool_decide_eq_true]%andb_true_iff.
  apply negb_true_iff in Hne, Hd. by rewrite Hne, Hp, Hd, Hos.
Qed.

Lemma open_wb_directory path w :
  is_empty path = false →
  parent_exists (fs w) path = true →
  names_directory (fs w) path = true →
  open_wb E path w = (Raise (IsADirectoryError path), w).
Proof. intros Hne Hp Hd. unfold open_wb. by rewrite Hne, Hp, Hd. Qed.

(** Opening fails or succeeds, and a failure leaves the world as it was. *)
Lemma open_wb_outcome path w :
  (∃ e, open_wb E path w = (Raise e, w)) ∨ can_open E (fs w) path = true.
Proof.
  unfold open_wb, can_open.
  destruct (is_empty path); simpl; [left; by eexists|].
  destruct (parent_exists (fs w) path); simpl; [|left; by eexists].
  destruct (names_directory (fs w) path); simpl; [left; by eexists|].
  destruct (open_refused E path) as [e|]; [left; by eexists | by right].
Qed.

Lemma _download_remote_open_fails script_path url_path w e :
  open_wb E script_path w = (Raise e, w) →
  _download_remote E script_path url_path w = (Raise e, w).
Proof. intros Hd. unfold _download_remote, bind. by rewrite Hd. Qed.

Lemma _download_remote_succeeds script_path url_path resp w :
  can_open E (fs w) script_path = true →
  fetch_succeeds E url_path resp →
  _download_remote E script_path url_path w
  = (Return tt,
     with_fs (λ f, mkFileSystem (<[script_path := content resp]> (files f))
                                (dirs f)) w).
Proof.
  intros Hd [Hget Hok].
  unfold _download_remote, bind. rewrite (open_wb_ok _ _ Hd).
  unfold try_except_RequestException, requests_get_M, outcome,
    raise_for_status, fp_write.
  rewrite Hget.
  destruct ((400 <=? status_code resp)%Z && (status_code resp <? 600)%Z) eqn:Hs.
  - apply andb_true_iff in Hs as [H1%Z.leb_le H2%Z.ltb_lt]. by destruct Hok.
  - unfold with_fs. simpl. by rewrite insert_insert_eq.
Qed.

Lemma _download_remote_fails script_path url_path e w :
  can_open E (fs w) script_path = true →
  fetch_fails E url_path e →
  _download_remote E script_path url_path w
  = (Raise (BadParameter
              ("Unable to fetch " +:+ url_path +:+ "." +:+ ch LF +:+ e)),
     with_fs (λ f, mkFileSystem (<[script_path := ""]> (files f)) (dirs f)) w).
Proof.
  intros Hd Hfail.
  unfold _download_remote, bind. rewrite (open_wb_ok _ _ Hd).
  unfold try_except_RequestException, requests_get_M, outcome,
    raise_for_status, raise.
  destruct Hfail as [Hget | (resp & Hget & [H1 H2] & <-)]; rewrite Hget; [done|].
  apply Z.leb_le in H1. apply Z.ltb_lt in H2. by rewrite H1, H2.
Qed.

End Fetcher.

(** ** The [run] command *)

Section Run.

Context (E : Env).

Lemma main_run_local target args kwargs w :
  url E target = false →
  main_run E target args kwargs w
  = if path_exists (fs w) target
    then _main_run E target args (overridden kwargs w)
    else (Raise (BadParameter ("File does not exist: " +:+ target)),
          overridden kwargs w).
Proof.
  intros Hu. unfold main_run, bind. rewrite apply_config_options_run, Hu.
  unfold os_path_exists, overridden. simpl.
  by destruct (path_exists (fs w) target).
Qed.

Lemma main_run_remote target args kwargs w :
  url E target = true →
  main_run E target args kwargs w
  = let d := mkdtemp E (fs w) in
    let script_path := os_path_join d (script_name E target) in
    let '(r, w') :=
      (_download_remote E script_path target ;;; _main_run E script_path args)
        (with_fs (λ f, mkFileSystem (files f) ({[d]} ∪ dirs f))
                 (overridden kwargs w)) in
    (r, TemporaryDirectory_exit d w').
Proof.
  intros Hu. unfold main_run, bind at 1. rewrite apply_config_options_run, Hu.
  reflexivity.
Qed.

(** In the directory [mkdtemp] has just made, the script path of a target
    with a proper file name can be opened unless the operating system
    refuses it. *)
Lemma script_path_opens target kwargs w :
  let d := mkdtemp E (fs w) in
  fresh_dir (fs w) d →
  script_name E target ≠ "" →
  script_name E target ≠ "." →
  script_name E target ≠ ".." →
  open_refused E (d +:+ "/" +:+ script_name E target) = None →
  os_path_join d (script_name E target) = d +:+ "/" +:+ script_name E target ∧
  can_open E
    (fs (with_fs (λ f, mkFileSystem (files f) ({[d]} ∪ dirs f))
                 (overridden kwargs w)))
    (d +:+ "/" +:+ script_name E target) = true.
Proof.
  intros d (Hd & Hs & Hfresh) Hname Hdot Hdots Hos.
  pose proof (last_item_rsplit1_no_sep "/" (strip "/" (urlparse_path E target)))
    as Hsep. fold (script_name E target) in Hsep.
  split; [by apply os_path_join_plain|].
  assert (rsplit1 "/" (d +:+ "/" +:+ script_name E target)
          = [d; script_name E target]) as Hsplit.
  { by apply (rsplit1_append "/" d (script_name E target)). }
  unfold can_open, parent_exists, names_directory. rewrite Hsplit, Hos.
  rewrite child_not_directory_name by done.
  change (last_item [d; script_name E target]) with (script_name E target).
  apply String.eqb_neq in Hdot, Hdots. rewrite Hdot, Hdots. simpl.
  assert (is_empty (d +:+ "/" +:+ script_name E target) = false) as ->.
  { by destruct d. }
  rewrite (bool_decide_eq_true_2 (d ∈ {[d]} ∪ dirs (fs w)))
    by (apply elem_of_union; left; by apply elem_of_singleton).
  rewrite orb_true_r. simpl.
  rewrite bool_decide_eq_false_2; [done|].
  rewrite elem_of_union, elem_of_singleton.
  intros [Heq | Hin].
  - apply append_eq_self in Heq. discriminate.
  - by apply (Hfresh _ (under_child d (script_name E target))).
Qed.

End Run.

Lemma _main_run_calls_bootstrap E file args w show :
  check_activated E = Return tt →
  should_show_new_version_notice E = Return show →
  bootstrap_calls (_main_run E file args w).2
  = (bootstrap_calls w
     ++ [mkBootstrapCall file (_get_command_line_as_string E) args (fs w)])%list.
Proof.
  intros Hc Hv. rewrite (_main_run_reaches_bootstrap E file args w show Hc Hv).
  destruct (bootstrap_run_M_calls E file (_get_command_line_as_string E) args
              (before_bootstrap show w)) as (r & f' & _ & ->).
  by destruct show.
Qed.

Lemma supplied_value_in_store kwargs st p v :
  NoDup kwargs.*1 →
  Forall (λ p, contains_char "." p = false) kwargs.*1 →
  (p, Some v) ∈ kwargs →
  write_all st (supplied kwargs) !! config_option_def_key p
  = Some (v, "cli call option").
Proof.
  intros Hnd Hdot Hp. apply write_all_lookup_in.
  - by apply supplied_NoDup.
  - apply elem_of_supplied. by exists p.
Qed.

(** C3. For a target that is not a URL: when the path exists, [main_run]
    hands exactly that path, unchanged, to the run orchestrator (and the
    orchestrator, once its gates pass, to the bootstrap entry point); when
    the path does not exist, [main_run] raises [BadParameter] with a
    message that names the path. *)
Theorem main_run_local_path
    (E : Env) (target : string) (args : list string)
    (kwargs : list (string * option PyValue)) (w : World) :
  url E target = false →
  (path_exists (fs w) target = true →
   main_run E target args kwargs w
   = _main_run E target args (overridden kwargs w) ∧
   ∀ show, check_activated E = Return tt →
           should_show_new_version_notice E = Return show →
           bootstrap_calls (main_run E target args kwargs w).2
           = (bootstrap_calls w
              ++ [mkBootstrapCall target (_get_command_line_as_string E) args
                                  (fs w)])%list) ∧
  (path_exists (fs w) target = false →
   main_run E target args kwargs w
   = (Raise (BadParameter ("File does not exist: " +:+ target)),
      overridden kwargs w) ∧
   infix_of target ("File does not exist: " +:+ target)).
Proof.
  intros Hu. rewrite (main_run_local E target args kwargs w Hu).
  split; intros ->.
  - split; [done|]. intros show Hc Hv.
    by rewrite (_main_run_calls_bootstrap E target args _ show Hc Hv).
  - split; [done|]. exists "File does not exist: ", "".
    by rewrite append_empty_r.
Qed.

(** A script that is on disk, and one that is not. *)
Lemma main_run_local_path_witness :
  bootstrap_calls (main_run Sample.env "./app.py" [] Sample.kwargs Sample.world).2
  = [mkBootstrapCall "./app.py" "streamlit run app.py" [] (fs Sample.world)] ∧
  (main_run Sample.env "nofile.py" [] Sample.kwargs Sample.world).1
  = Raise (BadParameter "File does not exist: nofile.py").
Proof.
  split.
  - destruct (main_run_local_path Sample.env "./app.py" [] Sample.kwargs
                Sample.world eq_refl) as [Hthere _].
    destruct (Hthere eq_refl) as [_ Hcall].
    exact (Hcall false eq_refl eq_refl).
  - destruct (main_run_local_path Sample.env "nofile.py" [] Sample.kwargs
                Sample.world eq_refl) as [_ Hmissing].
    destruct (Hmissing eq_refl) as [Hrun _]. rewrite Hrun. reflexivity.
Defined.

(** C10. For a [run] whose target is a local path that does not exist,
    [BadParameter] is raised with the store already changed: the world the
    error leaves is the one in which every supplied override is written.
    With a keyword dictionary, each supplied value is in the store, so the
    store differs from the one before the command whenever it did not hold
    one of them already. *)
Theorem main_run_missing_path_keeps_overrides
    (E : Env) (target : string) (args : list string)
    (kwargs : list (string * option PyValue)) (w : World) :
  url E target = false →
  path_exists (fs w) target = false →
  ∃ w',
    main_run E target args kwargs w
    = (Raise (BadParameter ("File does not exist: " +:+ target)), w') ∧
    _apply_config_options_from_cli kwargs w = (Return tt, w') ∧
    config w' = write_all (config w) (supplied kwargs) ∧
    bootstrap_calls w' = bootstrap_calls w ∧
    (NoDup kwargs.*1 →
     Forall (λ p, contains_char "." p = false) kwargs.*1 →
     ∀ p v, (p, Some v) ∈ kwargs →
       config w' !! config_option_def_key p = Some (v, "cli call option") ∧
       (config w !! config_option_def_key p ≠ Some (v, "cli call option") →
        config w' ≠ config w)).
Proof.
  intros Hu Hex. exists (overridden kwargs w).
  rewrite (main_run_local E target args kwargs w Hu), Hex.
  split; [done|]. split; [apply apply_config_options_run|].
  split; [done|]. split; [done|].
  intros Hnd Hdot p v Hp.
  pose proof (supplied_value_in_store kwargs (config w) p v Hnd Hdot Hp) as Hin.
  split; [exact Hin|]. simpl. intros Hold Heq. by rewrite Heq in Hin.
Qed.

(** The port set in the file is overridden although the run fails. *)
Lemma main_run_missing_path_keeps_overrides_witness :
  (main_run Sample.env "nofile.py" [] Sample.kwargs Sample.world).1
  = Raise (BadParameter "File does not exist: nofile.py") ∧
  config (main_run Sample.env "nofile.py" [] Sample.kwargs Sample.world).2
    !! "server.port" = Some (VInt 8080, "cli call option") ∧
  config Sample.world !! "server.port" = Some (VInt 8501, "config.toml").
Proof.
  destruct (main_run_missing_path_keeps_overrides Sample.env "nofile.py" []
              Sample.kwargs Sample.world eq_refl eq_refl)
    as (w' & Hrun & _ & Hcfg & _).
  rewrite Hrun. simpl. rewrite Hcfg.
  split; [reflexivity|]. split; reflexivity.
Defined.

(** ** Remote targets *)

(** C4, as stated, fails: the target [https://example.com/] is a URL whose
    path gives the empty file name; the script path is then the temporary
    directory itself, opening it raises, nothing is fetched, no file is
    created and the orchestrator is not called, although the fetch would
    have succeeded. *)
Lemma main_run_url_without_file_name :
  url Sample.env Sample.root_url = true ∧
  requests_get Sample.env Sample.root_url
  = inl (mkResponse 200 "" "<html></html>") ∧
  script_name Sample.env Sample.root_url = "" ∧
  (main_run Sample.env Sample.root_url [] Sample.kwargs Sample.world).1
  = Raise (IsADirectoryError "/tmp/tmpk3x9qz/") ∧
  files (fs (main_run Sample.env Sample.root_url [] Sample.kwargs Sample.world).2)
  = files (fs Sample.world) ∧
  bootstrap_calls
    (main_run Sample.env Sample.root_url [] Sample.kwargs Sample.world).2
  = [].
Proof. by vm_compute. Qed.

(** The names [..] and a missing directory: opening raises, and nothing is
    fetched. *)
Example main_run_url_dot_dot :
  (main_run Sample.env "https://example.com/.." [] Sample.kwargs Sample.world).1
  = Raise (IsADirectoryError "/tmp/tmpk3x9qz/..") ∧
  _download_remote Sample.env "/nodir/app.py" Sample.app_url Sample.world
  = (Raise (FileNotFoundError "/nodir/app.py"), Sample.world).
Proof. by vm_compute. Qed.

(** C4 (amended). For every target classified as a URL whose derived file
    name is a proper file name (not empty and neither [.] nor [..]) and
    whose script path the operating system does not refuse: the name is
    the segment after the last slash of the URL path with its leading and
    trailing slashes stripped, the script path is that name inside the
    directory [mkdtemp] has just created, and after a successful fetch the
    orchestrator runs in a world where that file holds exactly the bytes
    of the response. *)
Theorem main_run_url_target
    (E : Env) (target : string) (args : list string)
    (kwargs : list (string * option PyValue)) (w : World) (resp : Response) :
  url E target = true →
  script_name E target ≠ "" →
  script_name E target ≠ "." →
  script_name E target ≠ ".." →
  fresh_dir (fs w) (mkdtemp E (fs w)) →
  open_refused E (mkdtemp E (fs w) +:+ "/" +:+ script_name E target) = None →
  fetch_succeeds E target resp →
  let temp_dir := mkdtemp E (fs w) in
  let name := last_item (rsplit1 "/" (strip "/" (urlparse_path E target))) in
  let script_path := temp_dir +:+ "/" +:+ name in
  let w_run := fetched kwargs temp_dir script_path (content resp) w in
  contains_char "/" name = false ∧
  os_path_join temp_dir name = script_path ∧
  under temp_dir script_path = true ∧
  (temp_dir ∉ dirs (fs w)) ∧
  files (fs w) !! script_path = None ∧
  files (fs w_run) !! script_path = Some (content resp) ∧
  temp_dir ∈ dirs (fs w_run) ∧
  main_run E target args kwargs w
  = (let '(r, w') := _main_run E script_path args w_run in
     (r, TemporaryDirectory_exit temp_dir w')) ∧
  ∀ show, check_activated E = Return tt →
          should_show_new_version_notice E = Return show →
          bootstrap_calls (main_run E target args kwargs w).2
          = (bootstrap_calls w
             ++ [mkBootstrapCall script_path (_get_command_line_as_string E)
                                 args (fs w_run)])%list.
Proof.
  intros Hu Hname Hdot Hdots Hfresh Hos Hfetch. cbv zeta.
  change (last_item (rsplit1 "/" (strip "/" (urlparse_path E target))))
    with (script_name E target).
  destruct (script_path_opens E target kwargs w Hfresh Hname Hdot Hdots Hos)
    as [Hjoin Hopen].
  set (temp_dir := mkdtemp E (fs w)) in *.
  set (name := script_name E target) in *.
  set (script_path := temp_dir +:+ "/" +:+ name) in *.
  set (w_run := fetched kwargs temp_dir script_path (content resp) w).
  pose proof (under_child temp_dir name) as Hunder. fold script_path in Hunder.
  destruct Hfresh as (Hd1 & Hd2 & Hnone).
  assert (main_run E target args kwargs w
          = (let '(r, w') := _main_run E script_path args w_run in
             (r, TemporaryDirectory_exit temp_dir w'))) as Hrun.
  { rewrite (main_run_remote E target args kwargs w Hu). cbv zeta.
    fold temp_dir name. rewrite Hjoin. unfold bind at 1.
    by rewrite (_download_remote_succeeds E script_path target resp _ Hopen Hfetch). }
  split; [apply last_item_rsplit1_no_sep|].
  split; [done|]. split; [done|].
  split; [apply (Hnone temp_dir), under_self|].
  split; [by apply (Hnone script_path)|].
  split; [simpl; by rewrite lookup_insert_eq|].
  split; [simpl; apply elem_of_union; left; by apply elem_of_singleton|].
  split; [done|].
  intros show Hc Hv. rewrite Hrun.
  pose proof (_main_run_calls_bootstrap E script_path args w_run show Hc Hv) as Hb.
  destruct (_main_run E script_path args w_run) as [r w']. simpl in *.
  by rewrite Hb.
Qed.

(** The target [https://example.com/scripts/app.py] gives the file [app.py]. *)
Lemma main_run_url_target_witness :
  script_name Sample.env Sample.app_url = "app.py" ∧
  (main_run Sample.env Sample.app_url [] Sample.kwargs Sample.world).1
  = Return tt ∧
  bootstrap_calls
    (main_run Sample.env Sample.app_url [] Sample.kwargs Sample.world).2
  = [mkBootstrapCall "/tmp/tmpk3x9qz/app.py" "streamlit run app.py" []
       (fs (fetched Sample.kwargs "/tmp/tmpk3x9qz" "/tmp/tmpk3x9qz/app.py"
              Sample.app_bytes Sample.world))] ∧
  files (fs (fetched Sample.kwargs "/tmp/tmpk3x9qz" "/tmp/tmpk3x9qz/app.py"
               Sample.app_bytes Sample.world)) !! "/tmp/tmpk3x9qz/app.py"
  = Some "import streamlit as st".
Proof.
  assert (fresh_dir (fs Sample.world) (mkdtemp Sample.env (fs Sample.world)))
    as Hfresh.
  { split; [reflexivity|]. split; [reflexivity|]. intros p Hp. split.
    - intros Hin. apply elem_of_union in Hin as [Hin|Hin];
        apply elem_of_singleton in Hin; subst p; discriminate Hp.
    - apply lookup_singleton_None. intros <-. discriminate Hp. }
  assert (fetch_succeeds Sample.env Sample.app_url (mkResponse 200 "" Sample.app_bytes))
    as Hfetch.
  { split; [reflexivity|]. simpl. lia. }
  destruct (main_run_url_target Sample.env Sample.app_url [] Sample.kwargs
              Sample.world _ eq_refl ltac:(discriminate) ltac:(discriminate)
              ltac:(discriminate) Hfresh eq_refl Hfetch)
    as (_ & _ & _ & _ & _ & Hfile & _ & Hrun & Hcalls).
  split; [reflexivity|]. split; [by vm_compute|].
  split; [exact (Hcalls false eq_refl eq_refl) | exact Hfile].
Defined.

(** C5, as stated, fails: a response with the status 300 is not a success,
    yet [raise_for_status] does not raise for it, so [_download_remote]
    returns normally, the body is written to the script file and
    [main_run] hands the file to the orchestrator. *)
Lemma download_remote_status_300_is_run :
  url Examples.env_multiple_choices Examples.choices_url = true ∧
  requests_get Examples.env_multiple_choices Examples.choices_url
  = inl (mkResponse 300 "" Examples.choices_bytes) ∧
  (_download_remote Examples.env_multiple_choices "/tmp/script.py"
     Examples.choices_url Sample.world).1 = Return tt ∧
  files (fs (_download_remote Examples.env_multiple_choices "/tmp/script.py"
               Examples.choices_url Sample.world).2) !! "/tmp/script.py"
  = Some Examples.choices_bytes ∧
  (main_run Examples.env_multiple_choices Examples.choices_url []
     Sample.kwargs Sample.world).1 = Return tt ∧
  (λ c, (bc_file c, files (bc_fs c) !! bc_file c))
    <$> bootstrap_calls
          (main_run Examples.env_multiple_choices Examples.choices_url []
             Sample.kwargs Sample.world).2
  = [("/tmp/tmpk3x9qz/app.py", Some Examples.choices_bytes)].
Proof. by vm_compute. Qed.

(** C5 (amended). For every fetch that fails at the transport level or
    returns an error status, that is one of the statuses 400 to 599 for
    which [raise_for_status] raises: once the destination is open,
    [_download_remote] raises [BadParameter] with the message
    ["Unable to fetch <url>.\n<error>"], which holds both the URL and the
    text of the underlying error; [main_run] then raises the same error,
    and whether or not the destination could be opened it raises without
    calling the run orchestrator, so the script path never reaches the
    bootstrap entry point. *)
Theorem download_remote_failure_is_bad_parameter
    (E : Env) (url_path e : string) (w : World) :
  fetch_fails E url_path e →
  let message := "Unable to fetch " +:+ url_path +:+ "." +:+ ch LF +:+ e in
  infix_of url_path message ∧
  infix_of e message ∧
  (∀ script_path,
     can_open E (fs w) script_path = true →
     (_download_remote E script_path url_path w).1 = Raise (BadParameter message) ∧
     bootstrap_calls (_download_remote E script_path url_path w).2
     = bootstrap_calls w) ∧
  (∀ args kwargs,
     url E url_path = true →
     script_name E url_path ≠ "" →
     script_name E url_path ≠ "." →
     script_name E url_path ≠ ".." →
     fresh_dir (fs w) (mkdtemp E (fs w)) →
     open_refused E (mkdtemp E (fs w) +:+ "/" +:+ script_name E url_path) = None →
     (main_run E url_path args kwargs w).1 = Raise (BadParameter message) ∧
     bootstrap_calls (main_run E url_path args kwargs w).2 = bootstrap_calls w) ∧
  (∀ args kwargs,
     url E url_path = true →
     (∃ raised, (main_run E url_path args kwargs w).1 = Raise raised) ∧
     bootstrap_calls (main_run E url_path args kwargs w).2 = bootstrap_calls w).
Proof.
  intros Hfail. cbv zeta. split; [|split; [|split; [|split]]].
  - by exists "Unable to fetch ", ("." +:+ ch LF +:+ e).
  - exists ("Unable to fetch " +:+ url_path +:+ "." +:+ ch LF), "".
    by rewrite append_empty_r, !append_assoc.
  - intros script_path Hopen.
    by rewrite (_download_remote_fails E script_path url_path e w Hopen Hfail).
  - intros args kwargs Hu Hname Hdot Hdots Hfresh Hos.
    destruct (script_path_opens E url_path kwargs w Hfresh Hname Hdot Hdots Hos)
      as [Hjoin Hopen].
    rewrite (main_run_remote E url_path args kwargs w Hu). cbv zeta.
    rewrite Hjoin. unfold bind.
    by rewrite (_download_remote_fails E _ url_path e _ Hopen Hfail).
  - intros args kwargs Hu.
    rewrite (main_run_remote E url_path args kwargs w Hu). cbv zeta.
    unfold bind.
    match goal with
    | |- context [_download_remote E ?sp url_path ?w2] =>
        destruct (open_wb_outcome E sp w2) as [[raised Hraise] | Hopen];
        [rewrite (_download_remote_open_fails E sp url_path w2 raised Hraise)
        |rewrite (_download_remote_fails E sp url_path e w2 Hopen Hfail)]
    end; simpl; split; try done; by eexists.
Qed.

(** A status 404, and a refused connection. *)
Lemma download_remote_failure_is_bad_parameter_witness :
  (main_run Sample.env Sample.missing_url [] Sample.kwargs Sample.world).1
  = Raise (BadParameter
             ("Unable to fetch https://example.com/missing.py." +:+ ch LF
              +:+ "404 Client Error: Not Found for url: https://example.com/missing.py")) ∧
  bootstrap_calls
    (main_run Sample.env Sample.missing_url [] Sample.kwargs Sample.world).2
  = [] ∧
  (_download_remote Sample.env "/tmp/script.py" Sample.down_url Sample.world).1
  = Raise (BadParameter
             ("Unable to fetch http://host/x/y/script.py." +:+ ch LF
              +:+ "Connection refused")).
Proof.
  assert (fresh_dir (fs Sample.world) (mkdtemp Sample.env (fs Sample.world)))
    as Hfresh.
  { split; [reflexivity|]. split; [reflexivity|]. intros p Hp. split.
    - intros Hin. apply elem_of_union in Hin as [Hin|Hin];
        apply elem_of_singleton in Hin; subst p; discriminate Hp.
    - apply lookup_singleton_None. intros <-. discriminate Hp. }
  assert (fetch_fails Sample.env Sample.missing_url Sample.not_found) as H404.
  { right. exists (mkResponse 404 Sample.not_found "").
    split; [reflexivity|]. split; [simpl; lia | reflexivity]. }
  assert (fetch_fails Sample.env Sample.down_url "Connection refused") as Hdown.
  { left. reflexivity. }
  destruct (download_remote_failure_is_bad_parameter Sample.env _ _ Sample.world
              H404) as (_ & _ & _ & Hrun & _).
  destruct (Hrun [] Sample.kwargs eq_refl ltac:(discriminate) ltac:(discriminate)
              ltac:(discriminate) Hfresh eq_refl)
    as [Hraise Hcalls].
  destruct (download_remote_failure_is_bad_parameter Sample.env _ _ Sample.world
              Hdown) as (_ & _ & Hdl & _).
  destruct (Hdl "/tmp/script.py" eq_refl) as [Hraise' _].
  split; [exact Hraise|]. split; [exact Hcalls | exact Hraise'].
Defined.

(** C6. For every run whose target is a URL, whatever the fetch and the
    run orchestrator do, nothing is left at or below the path of the
    temporary directory when [main_run] is over: the directory is not a
    directory of the final file system, no file lies below it, and in
    particular the downloaded script is gone. *)
Theorem temporary_directory_removed
    (E : Env) (target : string) (args : list string)
    (kwargs : list (string * option PyValue)) (w : World) :
  url E target = true →
  let temp_dir := mkdtemp E (fs w) in
  let script_path := os_path_join temp_dir (script_name E target) in
  let w' := (main_run E target args kwargs w).2 in
  (temp_dir ∉ dirs (fs w')) ∧
  (∀ p, under temp_dir p = true →
        (p ∉ dirs (fs w')) ∧ files (fs w') !! p = None) ∧
  (is_empty temp_dir = false → ends_with_char "/" temp_dir = false →
   under temp_dir script_path = true ∧ files (fs w') !! script_path = None).
Proof.
  intros Hu. cbv zeta. rewrite (main_run_remote E target args kwargs w Hu).
  cbv zeta.
  match goal with
  | |- context [bind ?c ?k ?x] => destruct (bind c k x) as [r w3]
  end.
  simpl. split; [apply rmtree_removes, under_self|].
  split; [intros p Hp; by apply rmtree_removes|].
  intros Hd Hs.
  assert (under (mkdtemp E (fs w))
            (os_path_join (mkdtemp E (fs w)) (script_name E target)) = true)
    as Hunder.
  { rewrite os_path_join_plain; [apply under_child | done | done |].
    apply last_item_rsplit1_no_sep. }
  split; [done | by apply rmtree_removes].
Qed.

(** The three ways out of the scope: the run returns, the fetch fails, the
    delegate fails. *)
Lemma temporary_directory_removed_witness :
  ((main_run Sample.env Sample.app_url [] Sample.kwargs Sample.world).1
   = Return tt ∧
   files (fs (main_run Sample.env Sample.app_url [] Sample.kwargs Sample.world).2)
     !! "/tmp/tmpk3x9qz/app.py" = None) ∧
  ((main_run Sample.env Sample.missing_url [] Sample.kwargs Sample.world).1
   = Raise (BadParameter
              ("Unable to fetch https://example.com/missing.py." +:+ ch LF
               +:+ Sample.not_found)) ∧
   files (fs (main_run Sample.env Sample.missing_url [] Sample.kwargs
                Sample.world).2)
     !! "/tmp/tmpk3x9qz/missing.py" = None) ∧
  ((main_run Sample.env_crash Sample.app_url [] Sample.kwargs Sample.world).1
   = Raise (CollaboratorError "script failed") ∧
   files (fs (main_run Sample.env_crash Sample.app_url [] Sample.kwargs
                Sample.world).2)
     !! "/tmp/tmpk3x9qz/app.py" = None) ∧
  Sample.temp_dir
    ∉ dirs (fs (main_run Sample.env_crash Sample.app_url [] Sample.kwargs
                  Sample.world).2).
Proof.
  pose proof (temporary_directory_removed Sample.env Sample.app_url []
                Sample.kwargs Sample.world eq_refl) as (_ & Hok & _).
  pose proof (temporary_directory_removed Sample.env Sample.missing_url []
                Sample.kwargs Sample.world eq_refl) as (_ & Hfail & _).
  pose proof (temporary_directory_removed Sample.env_crash Sample.app_url []
                Sample.kwargs Sample.world eq_refl) as (Hdir & Hcrash & _).
  split; [split; [by vm_compute | exact (proj2 (Hok "/tmp/tmpk3x9qz/app.py" eq_refl))]|].
  split; [split; [by vm_compute | exact (proj2 (Hfail "/tmp/tmpk3x9qz/missing.py" eq_refl))]|].
  split; [split; [by vm_compute | exact (proj2 (Hcrash "/tmp/tmpk3x9qz/app.py" eq_refl))]|].
  exact Hdir.
Defined.

(** ** The deprecated alias *)

Lemma clear_cache_notice_text :
  clear_cache_notice
  = ch ESC +:+ "[31m" +:+ "Use " +:+ ch DQUOTE +:+ "cache clear" +:+ ch DQUOTE
    +:+ " instead." +:+ ch ESC +:+ "[0m".
Proof. reflexivity. Qed.

(** C9. [main_clear_cache] first writes the styled notice, which names the
    replacement ["cache clear"], and then does exactly what [cache_clear]
    does, called with no argument in the same world: the same outcome, the
    same file system (the cache directory cleared or not), and on the
    output the notice followed by what [cache_clear] alone would print,
    which is the "Cleared directory" line or the "Nothing to clear" line. *)
Theorem main_clear_cache_forwards (E : Env) (w : World) :
  main_clear_cache E w
  = cache_clear E (with_stdout (λ out, (out ++ [clear_cache_notice])%list) w) ∧
  infix_of "cache clear" clear_cache_notice ∧
  (main_clear_cache E w).1 = (cache_clear E w).1 ∧
  fs (main_clear_cache E w).2 = fs (cache_clear E w).2 ∧
  config (main_clear_cache E w).2 = config (cache_clear E w).2 ∧
  bootstrap_calls (main_clear_cache E w).2 = bootstrap_calls (cache_clear E w).2 ∧
  ∃ printed,
    stdout (cache_clear E w).2 = (stdout w ++ printed)%list ∧
    stdout (main_clear_cache E w).2
    = (stdout w ++ clear_cache_notice :: printed)%list ∧
    match (clear_cache E (fs w)).1 with
    | Return true =>
        printed = ["Cleared directory " +:+ get_cache_path E +:+ "."]
    | Return false =>
        printed = ["Nothing to clear at " +:+ get_cache_path E +:+ "."]
    | Raise _ => printed = []
    end.
Proof.
  split; [done|]. split.
  { exists (ch ESC +:+ "[31m" +:+ "Use " +:+ ch DQUOTE),
           (ch DQUOTE +:+ " instead." +:+ ch ESC +:+ "[0m"). reflexivity. }
  unfold main_clear_cache, ctx_invoke, cache_clear, bind, click_echo, print,
    click_echo.
  simpl. destruct (clear_cache E (fs w)) as [[[|]|e] f']; simpl.
  - repeat (split; [done|]). eexists. split; [done|].
    split; [|done]. by rewrite <- app_assoc.
  - repeat (split; [done|]). eexists. split; [done|].
    split; [|done]. by rewrite <- app_assoc.
  - repeat (split; [done|]). exists []. split; [by rewrite app_nil_r|].
    split; [|done]. done.
Qed.

Example clear_cache_alias_on_sample :
  stdout (main_clear_cache Sample.env Sample.world).2
  = [clear_cache_notice; "Cleared directory /home/user/.streamlit/cache."] ∧
  stdout (cache_clear Sample.env Sample.world).2
  = ["Cleared directory /home/user/.streamlit/cache."] ∧
  Sample.cache_dir ∉ dirs (fs (main_clear_cache Sample.env Sample.world).2).
Proof.
  split; [by vm_compute|]. split; [by vm_compute|].
  apply rmtree_removes, under_self.
Qed.

(** * Further properties of the commands *)

(** ** The flag installer *)

Lemma replace_dot_inj s t :
  contains_char "_" s = false → contains_char "_" t = false →
  replace "." "_" s = replace "." "_" t → s = t.
Proof.
  intros Hs Ht Heq.
  rewrite <- (replace_replace_back "." "_" s), <- (replace_replace_back "." "_" t)
    by done.
  by rewrite Heq.
Qed.

Lemma installed_flags (l : list (string * ConfigOption)) :
  co_option <$> map (λ kv, _convert_config_option_to_click_option kv.2) l
  = String.append "--" <$> ((λ kv, key kv.2) <$> l).
Proof. induction l as [|kv l IH]; [done|]. simpl. by f_equal. Qed.

Lemma installed_params (l : list (string * ConfigOption)) :
  co_param <$> map (λ kv, _convert_config_option_to_click_option kv.2) l
  = replace "." "_" <$> ((λ kv, key kv.2) <$> l).
Proof. induction l as [|kv l IH]; [done|]. simpl. by f_equal. Qed.

(** X1. The installer keeps the parameters the command already has, in
    front, and adds one per registry entry. When the keys of the
    registry are distinct the flags are distinct; when in addition no
    key holds an underscore, the parameter names are distinct too, so no
    two options share a keyword of [main_run]. *)
Theorem configurator_options_no_collision
    (reg : list (string * ConfigOption)) (func : list ClickOption) :
  NoDup ((λ kv, key kv.2) <$> reg) →
  configurator_options reg func = (func ++ configurator_options reg [])%list ∧
  length (configurator_options reg func) = (length func + length reg)%nat ∧
  NoDup (co_option <$> configurator_options reg []) ∧
  (Forall (λ kv, contains_char "_" (key kv.2) = false) reg →
   NoDup (co_param <$> configurator_options reg [])).
Proof.
  intros Hnd. rewrite !configurator_options_app. simpl.
  split; [done|].
  split; [by rewrite length_app, length_map, length_rev|].
  set (ks := (λ kv : string * ConfigOption, key kv.2) <$> rev reg).
  assert (NoDup ks) as Hks.
  { unfold ks. by rewrite <- Permutation_rev. }
  split.
  - rewrite installed_flags. fold ks.
    apply NoDup_fmap_2; [apply String.app_inj | done].
  - intros Hus.
    rewrite installed_params. fold ks.
    assert (∀ k, k ∈ ks → contains_char "_" k = false) as Hfree.
    { intros k ((k' & o) & -> & Hin)%list_elem_of_fmap.
      rewrite Forall_forall in Hus. apply (Hus (k', o)).
      apply list_elem_of_In, in_rev, list_elem_of_In in Hin. exact Hin. }
    apply NoDup_fmap_2_strong; [|done].
    intros x y Hx Hy. apply replace_dot_inj; by apply Hfree.
Qed.

(** The two definitions of the sample registry get distinct flags and
    distinct parameter names. *)
Lemma configurator_options_no_collision_witness :
  co_option <$> configurator_options Examples.registry []
  = ["--global.sharingMode"; "--server.port"] ∧
  NoDup (co_param <$> configurator_options Examples.registry []).
Proof.
  assert (NoDup ((λ kv : string * ConfigOption, key kv.2) <$> Examples.registry))
    as Hnd.
  { apply NoDup_cons. split; [|apply NoDup_singleton].
    intros Hin%list_elem_of_singleton. discriminate Hin. }
  destruct (configurator_options_no_collision Examples.registry [] Hnd)
    as (_ & _ & _ & Hparams).
  split; [reflexivity|]. apply Hparams.
  repeat constructor.
Defined.

(** ** More on the override applier *)

Lemma supplied_app l1 l2 : supplied (l1 ++ l2) = (supplied l1 ++ supplied l2)%list.
Proof.
  induction l1 as [|[p [v|]] l1 IH]; simpl; [done | by rewrite IH | done].
Qed.

Lemma write_all_app st l1 l2 :
  write_all st (l1 ++ l2) = write_all (write_all st l1) l2.
Proof. unfold write_all. by rewrite foldl_app. Qed.

(** The result of a sequence of writes depends on the store only at the
    keys that are not written. *)
Lemma write_all_agree (l : list (string * PyValue)) st1 st2 :
  (∀ k, k ∉ l.*1 → st1 !! k = st2 !! k) →
  write_all st1 l = write_all st2 l.
Proof.
  revert st1 st2. induction l as [|[k0 v0] l IH]; intros st1 st2 Hagree.
  - apply map_eq. intros k. apply Hagree. simpl. apply not_elem_of_nil.
  - change (write_all (<[k0 := (v0, "cli call option")]> st1) l
            = write_all (<[k0 := (v0, "cli call option")]> st2) l).
    apply IH. intros k Hk. destruct (decide (k = k0)) as [->|Hne].
    + by rewrite !lookup_insert_eq.
    + rewrite !lookup_insert_ne by done. apply Hagree.
      rewrite fmap_cons, not_elem_of_cons. by split.
Qed.

Lemma supplied_Permutation l1 l2 : l1 ≡ₚ l2 → supplied l1 ≡ₚ supplied l2.
Proof.
  induction 1 as [|[p [v|]] l1 l2 _ IH|[p [v|]] [q [u|]] l|l1 l2 l3 _ IH1 _ IH2];
    simpl; try done.
  - by constructor.
  - apply perm_swap.
  - by etransitivity.
Qed.

Lemma write_all_Permutation st (l1 l2 : list (string * PyValue)) :
  NoDup l1.*1 → l1 ≡ₚ l2 → write_all st l1 = write_all st l2.
Proof.
  intros Hnd Hperm. assert (NoDup l2.*1) as Hnd2 by by rewrite <- Hperm.
  apply map_eq. intros k.
  destruct (decide (k ∈ l1.*1)) as [Hin|Hnin].
  - apply list_elem_of_fmap in Hin as ([k' v] & -> & Hin). simpl.
    rewrite (write_all_lookup_in st l1 k' v Hnd Hin).
    symmetry. apply write_all_lookup_in; [done | by rewrite <- Hperm].
  - rewrite write_all_lookup_notin by done.
    rewrite write_all_lookup_notin; [done | by rewrite <- Hperm].
Qed.

(** X2. When no flag carries a value the applier leaves the world exactly as
    it was. *)
Theorem apply_config_options_nothing_supplied
    (kwargs : list (string * option PyValue)) (w : World) :
  Forall (λ e, e.2 = None) kwargs →
  _apply_config_options_from_cli kwargs w = (Return tt, w).
Proof.
  intros Hnone. rewrite apply_config_options_run.
  assert (supplied kwargs = []) as ->.
  { induction Hnone as [|[p v] l Hv _ IH]; [done|]. simpl in Hv. by subst v. }
  unfold write_all. simpl. by rewrite with_config_id.
Qed.

(** A command line without flags leaves the port of the file in place. *)
Lemma apply_config_options_nothing_supplied_witness :
  _apply_config_options_from_cli Examples.no_flags Sample.world
  = (Return tt, Sample.world).
Proof.
  apply apply_config_options_nothing_supplied. repeat constructor.
Defined.

(** X3. When several names translate to one key, the entry that comes last
    in the iteration order decides what the store holds: an entry with a
    value is in the store afterwards whenever no later entry with a value
    translates to the same key. *)
Theorem apply_config_options_last_write_wins
    (before after : list (string * option PyValue))
    (p : string) (v : PyValue) (w : World) :
  (∀ q u, (q, Some u) ∈ after →
          config_option_def_key q ≠ config_option_def_key p) →
  config (_apply_config_options_from_cli (before ++ (p, Some v) :: after) w).2
    !! config_option_def_key p
  = Some (v, "cli call option").
Proof.
  intros Hafter. rewrite apply_config_options_run. simpl.
  rewrite supplied_app. simpl. rewrite write_all_app.
  change (write_all ?st ((?k, ?x) :: ?l))
    with (write_all (<[k := (x, "cli call option")]> st) l).
  rewrite write_all_lookup_notin; [by rewrite lookup_insert_eq|].
  intros (q & u & Hq & Heq)%supplied_keys. by apply (Hafter q u).
Qed.

(** Of the names [a_b] and [a.b], both for the key [a.b], the second
    wins. *)
Lemma apply_config_options_last_write_wins_witness :
  config (_apply_config_options_from_cli Examples.clashing Sample.world).2
    !! "a.b" = Some (VInt 2, "cli call option").
Proof.
  apply (apply_config_options_last_write_wins
           [("a_b", Some (VInt 1))] [] "a.b" (VInt 2) Sample.world).
  intros q u Hq. by apply elem_of_nil in Hq.
Defined.

(** X4. The order in which the keyword dictionary is walked does not matter
    when the supplied entries go to distinct keys: any reordering of the
    entries leaves the same world. *)
Theorem apply_config_options_order_independent
    (kwargs kwargs' : list (string * option PyValue)) (w : World) :
  kwargs ≡ₚ kwargs' →
  NoDup (supplied kwargs).*1 →
  _apply_config_options_from_cli kwargs w
  = _apply_config_options_from_cli kwargs' w.
Proof.
  intros Hperm Hnd. rewrite !apply_config_options_run.
  unfold with_config. do 2 f_equal.
  apply write_all_Permutation; [done | by apply supplied_Permutation].
Qed.

(** The sample flags, walked backwards. *)
Lemma apply_config_options_order_independent_witness :
  _apply_config_options_from_cli Sample.kwargs Sample.world
  = _apply_config_options_from_cli (rev Sample.kwargs) Sample.world.
Proof.
  apply apply_config_options_order_independent.
  - apply Permutation_rev.
  - apply NoDup_cons. split; [|apply NoDup_singleton].
    intros Hin%list_elem_of_singleton. discriminate Hin.
Defined.

(** X5. Applying the same flags a second time changes nothing: the world
    after two passes is the world after one. *)
Theorem apply_config_options_twice
    (kwargs : list (string * option PyValue)) (w : World) :
  (_apply_config_options_from_cli kwargs ;;;
   _apply_config_options_from_cli kwargs) w
  = _apply_config_options_from_cli kwargs w.
Proof.
  unfold bind. rewrite !apply_config_options_run.
  unfold with_config. simpl. do 2 f_equal.
  apply write_all_agree. intros k Hk.
  by apply write_all_lookup_notin.
Qed.

(** ** The file name of a remote target *)

Section ScriptName.

Lemma lstrip_empty c s : lstrip c s = "" ↔ only_char c s = true.
Proof.
  induction s as [|a s IH]; simpl; [done|].
  destruct (Ascii.eqb a c); simpl; [exact IH | split; discriminate].
Qed.

Lemma lstrip_start c s : starts_with_char c (lstrip c s) = false.
Proof.
  induction s as [|a s IH]; simpl; [done|].
  destruct (Ascii.eqb a c) eqn:Ha; [exact IH | by simpl].
Qed.

Lemma rstrip_empty c s : rstrip c s = "" ↔ only_char c s = true.
Proof.
  induction s as [|a s IH]; simpl; [done|].
  destruct (Ascii.eqb a c); simpl; [|split; discriminate].
  destruct (rstrip c s) eqn:Hr; simpl.
  - split; [intros _; by apply IH | done].
  - split; [discriminate|]. intros H. apply IH in H. discriminate.
Qed.

Lemma rstrip_end c s : ends_with_char c (rstrip c s) = false.
Proof.
  induction s as [|a s IH]; simpl; [done|].
  destruct (Ascii.eqb a c) eqn:Ha; destruct (rstrip c s) as [|b r] eqn:Hr;
    simpl in *; try done.
Qed.

Lemma strip_empty c s : strip c s = "" ↔ only_char c s = true.
Proof.
  unfold strip. rewrite rstrip_empty, <- (lstrip_empty c s).
  pose proof (lstrip_start c s) as Hst.
  destruct (lstrip c s) as [|a t]; [by split|]. simpl in *.
  rewrite Hst. split; discriminate.
Qed.

Lemma rsplit1_single sep s t : rsplit1 sep s = [t] → t = s.
Proof.
  revert t. induction s as [|a s IH]; intros t; simpl.
  - by intros [= <-].
  - destruct (rsplit1_shape sep s) as [(t' & Hs & _) | (h & t' & Hs & _)];
      rewrite Hs.
    + destruct (Ascii.eqb a sep); [discriminate|].
      intros [= <-]. by rewrite (IH t' Hs).
    + discriminate.
Qed.

(** The last piece is empty exactly for the empty string and for a string
    that ends with the separator. *)
Lemma last_item_rsplit1_empty sep s :
  last_item (rsplit1 sep s) = ""
  ↔ is_empty s || ends_with_char sep s = true.
Proof.
  induction s as [|a s IH]; [done|].
  simpl rsplit1. simpl is_empty. rewrite orb_false_l.
  destruct (rsplit1_shape sep s) as [(t & Hs & _) | (h & t & Hs & _)];
    rewrite Hs in *.
  - apply rsplit1_single in Hs as ->.
    destruct (Ascii.eqb a sep) eqn:Ha.
    + change (s = "" ↔ ends_with_char sep (String a s) = true).
      simpl. destruct s as [|b s]; [by rewrite Ha|].
      split; [discriminate|]. intros He.
      apply IH in He. discriminate.
    + change (String a s = "" ↔ ends_with_char sep (String a s) = true).
      split; [discriminate|]. simpl. destruct s as [|b s]; [congruence|].
      intros He. apply IH in He. discriminate.
  - change (t = "" ↔ ends_with_char sep (String a s) = true).
    change (last_item [h; t]) with t in IH.
    destruct s as [|b s]; [discriminate Hs|].
    exact IH.
Qed.

End ScriptName.

Lemma script_name_empty_iff_aux (path : string) :
  last_item (rsplit1 "/" (strip "/" path)) = "" ↔ only_char "/" path = true.
Proof.
  rewrite last_item_rsplit1_empty. unfold strip at 2. rewrite rstrip_end.
  rewrite orb_false_r. rewrite <- strip_empty.
  by destruct (strip "/" path).
Qed.

(** X6. The file name derived from a URL target is empty exactly when the
    path of the URL consists of slashes only (the empty path included).
    The name never holds a slash, so joining it to a directory path [d]
    (not empty, no trailing slash) gives the string [d], a slash and the
    name. *)
Theorem script_name_empty_iff (E : Env) (target : string) :
  (last_item (rsplit1 "/" (strip "/" (urlparse_path E target))) = ""
   ↔ only_char "/" (urlparse_path E target) = true) ∧
  contains_char "/" (last_item (rsplit1 "/" (strip "/" (urlparse_path E target))))
  = false ∧
  ∀ d, is_empty d = false → ends_with_char "/" d = false →
       os_path_join d (last_item (rsplit1 "/" (strip "/" (urlparse_path E target))))
       = d +:+ "/"
         +:+ last_item (rsplit1 "/" (strip "/" (urlparse_path E target))).
Proof.
  split; [apply script_name_empty_iff_aux|].
  split; [apply last_item_rsplit1_no_sep|].
  intros d Hd Hs. apply os_path_join_plain; [done..|].
  apply last_item_rsplit1_no_sep.
Qed.

Lemma ends_with_char_slash d : ends_with_char "/" (d +:+ "/") = true.
Proof. by rewrite ends_with_char_append. Qed.

(** X8. For every URL target whose path consists of slashes only, [main_run]
    ends with the error of opening the temporary directory itself for
    writing, whatever the fetch would have returned: the orchestrator is
    not called and nothing is printed. *)
Theorem main_run_url_only_slashes
    (E : Env) (target : string) (args : list string)
    (kwargs : list (string * option PyValue)) (w : World) :
  url E target = true →
  only_char "/" (urlparse_path E target) = true →
  is_empty (mkdtemp E (fs w)) = false →
  ends_with_char "/" (mkdtemp E (fs w)) = false →
  (main_run E target args kwargs w).1
  = Raise (IsADirectoryError (mkdtemp E (fs w) +:+ "/")) ∧
  bootstrap_calls (main_run E target args kwargs w).2 = bootstrap_calls w ∧
  stdout (main_run E target args kwargs w).2 = stdout w ∧
  files (fs (main_run E target args kwargs w).2)
  = filter (λ kv, under (mkdtemp E (fs w)) kv.1 = false) (files (fs w)).
Proof.
  intros Hu Hpath Hd Hs.
  rewrite (main_run_remote E target args kwargs w Hu). cbv zeta.
  assert (script_name E target = "") as ->.
  { unfold script_name. by apply script_name_empty_iff_aux. }
  rewrite os_path_join_empty by done. unfold bind.
  set (d := mkdtemp E (fs w)) in *.
  rewrite (_download_remote_open_fails E _ _ _ (IsADirectoryError (d +:+ "/")));
    [done|].
  apply open_wb_directory.
  - by destruct d.
  - unfold parent_exists.
    rewrite (rsplit1_append "/" d "" eq_refl). simpl.
    rewrite (bool_decide_eq_true_2 (d ∈ {[d]} ∪ dirs (fs w)))
      by (apply elem_of_union; left; by apply elem_of_singleton).
    by rewrite orb_true_r.
  - unfold names_directory. by rewrite ends_with_char_slash.
Qed.

(** The target [https://example.com/]. *)
Lemma main_run_url_only_slashes_witness :
  (main_run Sample.env Sample.root_url [] Sample.kwargs Sample.world).1
  = Raise (IsADirectoryError "/tmp/tmpk3x9qz/") ∧
  bootstrap_calls
    (main_run Sample.env Sample.root_url [] Sample.kwargs Sample.world).2 = [].
Proof.
  destruct (main_run_url_only_slashes Sample.env Sample.root_url []
              Sample.kwargs Sample.world eq_refl eq_refl eq_refl eq_refl)
    as (Hraise & Hcalls & _).
  split; [exact Hraise | exact Hcalls].
Defined.

(** ** What a failed download leaves behind *)

(** X9. When the destination can be opened and the fetch then fails, the
    destination has already been opened for writing: afterwards it exists
    and is empty, whatever it held before, and no other file, directory,
    store entry or output line has changed. *)
Theorem download_remote_failure_truncates
    (E : Env) (script_path url_path e : string) (w : World) :
  can_open E (fs w) script_path = true →
  fetch_fails E url_path e →
  let w' := (_download_remote E script_path url_path w).2 in
  files (fs w') !! script_path = Some "" ∧
  (∀ p, p ≠ script_path → files (fs w') !! p = files (fs w) !! p) ∧
  dirs (fs w') = dirs (fs w) ∧
  config w' = config w ∧
  stdout w' = stdout w.
Proof.
  intros Hopen Hfail. cbv zeta.
  rewrite (_download_remote_fails E script_path url_path e w Hopen Hfail).
  simpl. split; [by rewrite lookup_insert_eq|].
  split; [|done]. intros p Hp. by rewrite lookup_insert_ne.
Qed.

(** A refused connection empties the script that was at the destination. *)
Lemma download_remote_failure_truncates_witness :
  files (fs Examples.world_with_old_script) !! "/tmp/script.py"
  = Some "old bytes" ∧
  files (fs (_download_remote Sample.env "/tmp/script.py" Sample.down_url
               Examples.world_with_old_script).2) !! "/tmp/script.py"
  = Some "".
Proof.
  split; [reflexivity|].
  apply (download_remote_failure_truncates Sample.env "/tmp/script.py"
           Sample.down_url "Connection refused" Examples.world_with_old_script).
  - reflexivity.
  - left. reflexivity.
Defined.

(** ** The gates of the orchestrator *)

(** X10. The gates of the orchestrator are hard: when the credential
    check raises, [_main_run] raises the same exception, echoes no notice
    and does not call the bootstrap entry point, whatever the version
    check would have answered; when the credential check passes and the
    version check raises, the same holds for its exception. On every path
    [_main_run] calls the bootstrap entry point at most once. *)
Theorem _main_run_failure_paths
    (E : Env) (file : string) (args : list string) (w : World) :
  (∀ e, check_activated E = Raise e →
        (_main_run E file args w).1 = Raise e ∧
        bootstrap_calls (_main_run E file args w).2 = bootstrap_calls w ∧
        stdout (_main_run E file args w).2 = stdout w) ∧
  (∀ e, check_activated E = Return tt →
        should_show_new_version_notice E = Raise e →
        (_main_run E file args w).1 = Raise e ∧
        bootstrap_calls (_main_run E file args w).2 = bootstrap_calls w ∧
        stdout (_main_run E file args w).2 = stdout w) ∧
  (length (bootstrap_calls (_main_run E file args w).2)
   ≤ S (length (bootstrap_calls w)))%nat.
Proof.
  unfold _main_run, bind, outcome, bootstrap_run_M, click_echo, ret.
  destruct (check_activated E) as [[]|e1] eqn:Hc;
    [destruct (should_show_new_version_notice E) as [[|]|e2] eqn:Hv|]; simpl.
  1, 2: destruct (bootstrap_run E _ _ _ _) as [r f']; simpl;
    rewrite length_app; simpl.
  all: split; [intros e He; try discriminate He; by injection He as <-|].
  all: split; [|lia].
  all: intros e He1 He2; try discriminate He1; try discriminate He2.
  by injection He2 as <-.
Qed.

Example main_hello_without_activation :
  main_hello Examples.env_not_activated "hello.py" Sample.world
  = (Raise (CollaboratorError "not activated"), with_running true Sample.world).
Proof. reflexivity. Qed.

(** ** A remote run that fails and the file system *)

(** Removing a directory under which nothing existed before it was
    created, and in which at most one file was written, gives the old
    file system back. *)
Lemma rmtree_restores f d :
  (∀ p, under d p = true → (p ∉ dirs f) ∧ files f !! p = None) →
  rmtree d (mkFileSystem (files f) ({[d]} ∪ dirs f)) = f ∧
  ∀ script_path data,
    under d script_path = true →
    rmtree d (mkFileSystem (<[script_path := data]> (files f)) ({[d]} ∪ dirs f))
    = f.
Proof.
  intros Hfresh. destruct f as [fl ds]. simpl in *.
  assert (filter (λ kv : string * string, under d kv.1 = false) fl = fl) as Hfl.
  { apply map_filter_id. intros p x Hp. simpl.
    destruct (under d p) eqn:Hu; [|done].
    destruct (Hfresh p Hu) as [_ Hnone]. congruence. }
  assert (filter (λ p, under d p = false) ({[d]} ∪ ds) = ds) as Hds.
  { apply set_eq. intros p.
    rewrite elem_of_filter, elem_of_union, elem_of_singleton. split.
    - intros [Hu [-> | Hin]]; [by rewrite under_self in Hu | done].
    - intros Hin. split; [|by right].
      destruct (under d p) eqn:Hu; [|done]. by destruct (Hfresh p Hu). }
  unfold rmtree. simpl. split; [by rewrite Hfl, Hds|].
  intros script_path data Hu. rewrite Hds. f_equal.
  rewrite map_filter_insert_False by (simpl; congruence).
  rewrite delete_id; [done|]. by destruct (Hfresh script_path Hu).
Qed.

(** X11. A remote run whose fetch fails leaves no trace on disk: with a
    fresh temporary directory, [main_run] raises before it reaches the
    orchestrator, whether or not the script file could be opened, and the
    file system afterwards is the one before the command; the file the
    download had opened is gone with the directory. *)
Theorem main_run_failed_fetch_restores_files
    (E : Env) (target e : string) (args : list string)
    (kwargs : list (string * option PyValue)) (w : World) :
  url E target = true →
  fresh_dir (fs w) (mkdtemp E (fs w)) →
  fetch_fails E target e →
  fs (main_run E target args kwargs w).2 = fs w ∧
  bootstrap_calls (main_run E target args kwargs w).2 = bootstrap_calls w ∧
  ∃ raised, (main_run E target args kwargs w).1 = Raise raised.
Proof.
  intros Hu Hfresh Hfail.
  rewrite (main_run_remote E target args kwargs w Hu). cbv zeta.
  destruct Hfresh as (Hd & Hs & Hnone).
  destruct (rmtree_restores (fs w) (mkdtemp E (fs w)) Hnone) as [Hplain Hfile].
  set (d := mkdtemp E (fs w)) in *.
  assert (under d (os_path_join d (script_name E target)) = true) as Hunder.
  { rewrite os_path_join_plain; [apply under_child | done | done |].
    apply last_item_rsplit1_no_sep. }
  set (script_path := os_path_join d (script_name E target)) in *.
  set (w2 := with_fs _ (overridden kwargs w)).
  unfold bind.
  destruct (open_wb_outcome E script_path w2) as [[raised Hraise] | Hopen].
  - rewrite (_download_remote_open_fails E script_path target w2 raised Hraise).
    simpl. split; [exact Hplain|]. split; [done | by eexists].
  - rewrite (_download_remote_fails E script_path target e w2 Hopen Hfail).
    simpl. split; [by apply Hfile|]. split; [done | by eexists].
Qed.

Lemma sample_temp_dir_fresh :
  fresh_dir (fs Sample.world) (mkdtemp Sample.env (fs Sample.world)).
Proof.
  split; [reflexivity|]. split; [reflexivity|]. intros p Hp. split.
  - intros Hin. apply elem_of_union in Hin as [Hin|Hin];
      apply elem_of_singleton in Hin; subst p; discriminate Hp.
  - apply lookup_singleton_None. intros <-. discriminate Hp.
Qed.

(** The fetch of a missing script: status 404, and the disk is as before. *)
Lemma main_run_failed_fetch_restores_files_witness :
  fs (main_run Sample.env Sample.missing_url [] Sample.kwargs Sample.world).2
  = fs Sample.world ∧
  bootstrap_calls
    (main_run Sample.env Sample.missing_url [] Sample.kwargs Sample.world).2 = [].
Proof.
  assert (fetch_fails Sample.env Sample.missing_url Sample.not_found) as H404.
  { right. exists (mkResponse 404 Sample.not_found "").
    split; [reflexivity|]. split; [simpl; lia | reflexivity]. }
  destruct (main_run_failed_fetch_restores_files Sample.env Sample.missing_url
              Sample.not_found [] Sample.kwargs Sample.world eq_refl
              sample_temp_dir_fresh H404) as (Hfs & Hcalls & _).
  split; [exact Hfs | exact Hcalls].
Defined.

(** ** The [hello] command *)

Section Hello.

Lemma endswith_append suffix base : endswith suffix (base +:+ suffix) = true.
Proof.
  induction base as [|a base IH].
  - change (endswith suffix suffix = true).
    destruct suffix; simpl; [done|]. rewrite Ascii.eqb_refl, String.eqb_refl. done.
  - change (endswith suffix (String a (base +:+ suffix)) = true).
    simpl. rewrite IH. by rewrite orb_true_r.
Qed.

Lemma endswith_elim suffix s :
  endswith suffix s = true → ∃ base, s = base +:+ suffix.
Proof.
  induction s as [|a s IH].
  - destruct suffix; [by exists ""|]. discriminate.
  - change (endswith suffix (String a s))
      with (String.eqb (String a s) suffix || endswith suffix s).
    intros [Heq%String.eqb_eq | Hs]%orb_true_iff.
    + exists "". by subst.
    + destruct (IH Hs) as [base ->]. by exists (String a base).
Qed.

Lemma length_append_string (a b : string) :
  String.length (a +:+ b) = (String.length a + String.length b)%nat.
Proof.
  induction a as [|x a IH]; [done|].
  change (S (String.length (a +:+ b)) = S (String.length a + String.length b)).
  by rewrite IH.
Qed.

Lemma take_chars_append (a b : string) :
  take_chars (String.length a) (a +:+ b) = a.
Proof.
  induction a as [|x a IH]; [by destruct b|].
  change (String x (take_chars (String.length a) (a +:+ b)) = String x a).
  by rewrite IH.
Qed.

Lemma slice_to_neg_append (base suffix : string) :
  slice_to_neg (String.length suffix) (base +:+ suffix) = base.
Proof.
  unfold slice_to_neg. rewrite length_append_string.
  replace (String.length base + String.length suffix - String.length suffix)%nat
    with (String.length base) by lia.
  apply take_chars_append.
Qed.

End Hello.

(** X12. [main_hello] hands the orchestrator a source file: the path of a
    compiled module [base.pyc] becomes [base.py], any other path is kept,
    and in both cases the file passed on does not end in [.pyc]. The
    orchestrator is called with no script argument, with the store and
    the disk untouched. *)
Theorem main_hello_runs_source (E : Env) (hello_file : string) (w : World) :
  ∃ filename,
    main_hello E hello_file w = _main_run E filename [] w ∧
    endswith ".pyc" filename = false ∧
    (∀ base, hello_file = base +:+ ".pyc" → filename = base +:+ ".py") ∧
    (endswith ".pyc" hello_file = false → filename = hello_file).
Proof.
  unfold main_hello. destruct (endswith ".pyc" hello_file) eqn:Hpyc.
  - apply endswith_elim in Hpyc as Hbase. destruct Hbase as [base ->].
    change 4%nat with (String.length ".pyc"). rewrite slice_to_neg_append.
    exists (base +:+ ".py"). split; [done|]. split; [|split; [|done]].
    + destruct (endswith ".pyc" (base +:+ ".py")) eqn:He; [|done].
      apply endswith_elim in He as [base' He].
      assert (ends_with_char "c" (base +:+ ".py")
              = ends_with_char "c" (base' +:+ ".pyc")) as Hc by by rewrite He.
      rewrite !ends_with_char_append in Hc by done. discriminate Hc.
    + intros base' Heq. apply (f_equal (slice_to_neg (String.length ".pyc"))) in Heq.
      rewrite !slice_to_neg_append in Heq. by subst.
  - exists hello_file. split; [done|]. split; [done|]. split; [|done].
    intros base ->. by rewrite endswith_append in Hpyc.
Qed.

Example main_hello_compiled_module :
  bootstrap_calls (main_hello Sample.env Examples.hello_pyc Sample.world).2
  = [mkBootstrapCall "/site-packages/streamlit/hello/hello.py"
       "streamlit run app.py" [] (fs Sample.world)].
Proof. reflexivity. Qed.

(** ** The file name is the last segment of the path *)

Section LastSegment.

Lemma lstrip_decompose c s :
  ∃ pre, s = pre +:+ lstrip c s ∧ only_char c pre = true.
Proof.
  induction s as [|a s (pre & Hs & Hpre)]; [by exists ""|]. simpl.
  destruct (Ascii.eqb a c) eqn:Ha; [|by exists ""].
  exists (String a pre). split; [|by simpl; rewrite Ha].
  change (String a s = String a (pre +:+ lstrip c s)). by f_equal.
Qed.

Lemma rstrip_decompose c s :
  ∃ post, s = rstrip c s +:+ post ∧ only_char c post = true.
Proof.
  induction s as [|a s (post & Hs & Hpost)]; [by exists ""|]. simpl.
  destruct (Ascii.eqb a c && is_empty (rstrip c s)) eqn:Hcut.
  - apply andb_true_iff in Hcut as [Ha Hr].
    destruct (rstrip c s); [|discriminate Hr].
    exists (String a post). split; [|by simpl; rewrite Ha].
    change (String a s = String a post). by f_equal.
  - exists post. split; [|done].
    change (String a s = String a (rstrip c s +:+ post)). by f_equal.
Qed.

Lemma rsplit1_decompose sep s :
  rsplit1 sep s = [s] ∨
  ∃ h t, rsplit1 sep s = [h; t] ∧ s = h +:+ String sep t.
Proof.
  induction s as [|a s IH]; [by left|]. simpl.
  destruct IH as [-> | (h & t & -> & Hs)].
  - destruct (Ascii.eqb a sep) eqn:Ha; [|by left].
    apply Ascii.eqb_eq in Ha as ->. right. by exists "", s.
  - right. exists (String a h), t. split; [done|].
    change (String a s = String a (h +:+ String sep t)). by f_equal.
Qed.

Lemma only_char_end c s :
  only_char c s = true → s = "" ∨ ends_with_char c s = true.
Proof.
  induction s as [|a s IH]; [by left|]. simpl.
  intros [Ha Hs]%andb_true_iff. right.
  destruct (IH Hs) as [-> | He]; [done|]. by destruct s.
Qed.

End LastSegment.

(** X7. The derived file name is the last segment of the URL path: the path
    is a prefix that is empty or ends with a slash, then the name, which
    holds no slash, then nothing but slashes. *)
Theorem script_name_is_last_segment (E : Env) (target : string) :
  let name := last_item (rsplit1 "/" (strip "/" (urlparse_path E target))) in
  contains_char "/" name = false ∧
  ∃ pre post,
    urlparse_path E target = pre +:+ name +:+ post ∧
    (pre = "" ∨ ends_with_char "/" pre = true) ∧
    only_char "/" post = true.
Proof.
  cbv zeta. split; [apply last_item_rsplit1_no_sep|].
  set (path := urlparse_path E target). unfold strip.
  destruct (lstrip_decompose "/" path) as (pre & Hpath & Hpre).
  destruct (rstrip_decompose "/" (lstrip "/" path)) as (post & Hl & Hpost).
  set (core := rstrip "/" (lstrip "/" path)) in *.
  destruct (rsplit1_decompose "/" core) as [-> | (h & t & -> & Hcore)].
  - exists pre, post. split; [|split; [by apply only_char_end | done]].
    change (last_item [core]) with core. by rewrite <- Hl.
  - exists (pre +:+ h +:+ "/"), post.
    change (last_item [h; t]) with t.
    split; [|split; [right | done]].
    + rewrite Hpath, Hl, Hcore. rewrite !append_assoc. reflexivity.
    + rewrite <- append_assoc. apply ends_with_char_slash.
Qed.
